(** * goecsclient: the ECS session (session.go)

  A shallow embedding of [session.go]: the [ecsSession] record, the login
  routine [performLogin] with its deferred token refresh, the constructor
  [createEcsSession] and the three request methods [Get], [Post], [Put].

  Conventions of the embedding.
  - A Go [string] is a [string] (a sequence of bytes); a Go [[]byte] is a
    [Bytes], that is [option (list byte)], with [None] for the [nil] slice.
  - A Go [error] result is an [option error], with [None] for [nil].
  - [http.Header] is a finite map from canonical keys to value lists.
  - A nil-pointer dereference is the outcome [Panic].
  - The network is an oracle [Net]: what the transport answers to each
    [Client.Do].
  - [go func() { ... }()] is recorded as a spawned [Refresh] task.
  - Logging and the deferred [resp.Body.Close()] do not change any value
    modelled here and are left out. *)

From Stdlib Require Import ZArith Ascii String List Bool Lia.
From stdpp Require Import base option list gmap strings.

Import ListNotations.
Local Open Scope string_scope.
Local Open Scope Z_scope.

(** ** Go values *)

Abbreviation Bytes := (option (list Byte.byte)).

(** int64 wrap-around of an integer result. *)
Definition wrap64 (z : Z) : Z := (z + 2 ^ 63) mod 2 ^ 64 - 2 ^ 63.

(** uint64 wrap-around. *)
Definition wrapU64 (z : Z) : Z := z mod 2 ^ 64.

(** ** net/textproto: canonical header keys *)

Module textproto.

Definition byteZ (c : ascii) : Z := Z.of_nat (nat_of_ascii c).

Definition isLower (c : ascii) : bool := (97 <=? byteZ c) && (byteZ c <=? 122).
Definition isUpper (c : ascii) : bool := (65 <=? byteZ c) && (byteZ c <=? 90).
Definition isDigit (c : ascii) : bool := (48 <=? byteZ c) && (byteZ c <=? 57).

(** The [toLower] constant of textproto is ['a' - 'A']. *)
Definition toLower : nat := 32.

(** [validHeaderFieldByte]: the token characters of RFC 7230. *)
Definition validHeaderFieldByte (c : ascii) : bool :=
  isLower c || isUpper c || isDigit c
  || existsb (Ascii.eqb c)
       ["!"; "#"; "$"; "%"; "&"; "'"; "*"; "+"; "-"; "."; "^"; "_"; "`"; "|"; "~"]%char.

Fixpoint allValid (s : string) : bool :=
  match s with
  | EmptyString => true
  | String c r => validHeaderFieldByte c && allValid r
  end.

(** The rewriting loop of [canonicalMIMEHeaderKey]: upper case at the
    start and after each dash, lower case elsewhere. *)
Fixpoint canonLoop (upper : bool) (s : string) : string :=
  match s with
  | EmptyString => EmptyString
  | String c r =>
      let c' :=
        if upper && isLower c then ascii_of_nat (nat_of_ascii c - toLower)
        else if negb upper && isUpper c then ascii_of_nat (nat_of_ascii c + toLower)
        else c in
      String c' (canonLoop (Ascii.eqb c' "-") r)
  end.

(** [CanonicalMIMEHeaderKey]: a key holding a byte that is not a header
    field byte is returned unchanged. *)
Definition CanonicalMIMEHeaderKey (s : string) : string :=
  if allValid s then canonLoop true s else s.

End textproto.

(** ** net/http: headers *)

Module http.

Abbreviation Header := (gmap string (list string)).

Definition StatusOK : Z := 200.
Definition StatusCreated : Z := 201.

(** [Header.Get]: first value under the canonical key, or the empty string. *)
Definition Header_Get (h : Header) (key : string) : string :=
  match h !! textproto.CanonicalMIMEHeaderKey key with
  | Some (v :: _) => v
  | _ => ""
  end.

(** [Header.Set]: the canonical key now holds exactly [value]. *)
Definition Header_Set (h : Header) (key value : string) : Header :=
  <[textproto.CanonicalMIMEHeaderKey key := [value]]> h.

(** [len(h)] for a header map. *)
Definition Header_len (h : Header) : nat := size h.

End http.

(** ** strconv.ParseInt(s, 10, 64) *)

Module strconv.

Inductive NumError := ErrSyntax | ErrRange.

Definition maxUint64 : Z := 2 ^ 64 - 1.

(** The digit loop of [ParseUint] in base 10 with [bitSize] 64; [n] is the
    value accumulated so far.  The result carries the value that Go returns
    next to the error. *)
Fixpoint ParseUint_loop (s : string) (n : Z) : Z * option NumError :=
  match s with
  | EmptyString => (n, None)
  | String c r =>
      if negb (textproto.isDigit c) then (0, Some ErrSyntax)
      else
        let d := textproto.byteZ c - 48 in
        if maxUint64 / 10 + 1 <=? n then (maxUint64, Some ErrRange)
        else
          let n10 := n * 10 in
          let n1 := wrapU64 (n10 + d) in
          if (n1 <? n10) || (maxUint64 <? n1) then (maxUint64, Some ErrRange)
          else ParseUint_loop r n1
  end.

Definition ParseUint (s : string) : Z * option NumError :=
  match s with
  | EmptyString => (0, Some ErrSyntax)
  | _ => ParseUint_loop s 0
  end.

Definition ParseInt (s : string) : Z * option NumError :=
  match s with
  | EmptyString => (0, Some ErrSyntax)
  | String c r =>
      let neg := Ascii.eqb c "-" in
      let digits := if Ascii.eqb c "+" || neg then r else s in
      let '(un, err) := ParseUint digits in
      match err with
      | Some ErrSyntax => (0, Some ErrSyntax)
      | _ =>
          let cutoff := 2 ^ 63 in
          if negb neg && (cutoff <=? un) then (cutoff - 1, Some ErrRange)
          else if neg && (cutoff <? un) then (- cutoff, Some ErrRange)
          else (if neg then wrap64 (- wrap64 un) else wrap64 un, None)
      end
  end.

End strconv.

(** ** time *)

Module time.

(** A [Duration] is an int64 count of nanoseconds. *)
Definition Second : Z := 1000000000.

(** [time.Duration(age) * time.Second], an int64 product. *)
Definition seconds (age : Z) : Z := wrap64 (age * Second).

(** [time.Sleep(d)] pauses for [d] nanoseconds and returns at once when
    [d] is zero or negative. *)
Definition Sleep_pause (d : Z) : Z := Z.max 0 d.

End time.

(** ** External collaborators

    What [session.go] takes from other packages and does not define:
    [net/url] (parsing, query encoding), the base64 credentials of
    [Request.SetBasicAuth], and the two error constructors of the package
    [goecsclient/errors].  [error] is the type of non-nil Go errors. *)

Class Collaborators := {
  error : Type;
  URL : Type;
  Values : Type;
  (** [url.Parse]: the parsed URL, or the error. *)
  url_Parse : string -> URL + error;
  (** [u.RawQuery = q] *)
  URL_setRawQuery : URL -> string -> URL;
  (** [q.Encode()] *)
  Values_Encode : Values -> string;
  (** [basicAuth(username, password)] of net/http. *)
  basicAuth : string -> string -> string;
  (** [errors.Wrap(msg)] *)
  errors_Wrap : string -> error;
  (** [errors.ParseError(body)] *)
  errors_ParseError : list Byte.byte -> error;
}.

(** Control flow of a call: it returns, or it panics on a nil pointer. *)
Inductive Outcome (A : Type) : Type :=
| Panic : Outcome A
| Return : A -> Outcome A.

Arguments Panic {A}.
Arguments Return {A} _.

Section Session.

Context `{L : Collaborators}.

(** *** Requests and responses of net/http *)

Record Request := mkRequest {
  Method : string;
  ReqURL : URL;
  ReqHeader : http.Header;
  ReqBody : option (list Byte.byte);
}.

(** A response body, seen through [io.ReadAll]: the bytes it delivers and
    the read error that ends it, if any. *)
Record ReadCloser := mkReadCloser {
  content : list Byte.byte;
  failure : option error;
}.

Record Response := mkResponse {
  Status : string;
  StatusCode : Z;
  RespHeader : http.Header;
  Body : option ReadCloser;
}.

(** [io.ReadAll] grows a buffer made with [make], so the slice it returns
    is never [nil], also when no byte was read. *)
Definition io_ReadAll (r : ReadCloser) : Bytes * option error :=
  (Some (content r), failure r).

(** [http.NewRequest(method, url, body)].  The methods used here, GET, POST
    and PUT, are valid, so only [url.Parse] can fail; the request is then
    [nil]. *)
Definition NewRequest (method urlStr : string) (body : option (list Byte.byte))
  : option Request * option error :=
  match url_Parse urlStr with
  | inr e => (None, Some e)
  | inl u => (Some (mkRequest method u ∅ body), None)
  end.

(** [bytes.NewReader(d)]: a reader over the bytes of [d]. *)
Definition bytes_NewReader (d : Bytes) : option (list Byte.byte) :=
  Some (default [] d).

(** [req.URL.RawQuery = raw] *)
Definition setRawQuery (req : Request) (raw : string) : Request :=
  mkRequest (Method req) (URL_setRawQuery (ReqURL req) raw) (ReqHeader req) (ReqBody req).

(** [req.Header.Set(k, v)] *)
Definition setHeader (req : Request) (k v : string) : Request :=
  mkRequest (Method req) (ReqURL req) (http.Header_Set (ReqHeader req) k v) (ReqBody req).

(** [req.SetBasicAuth(username, password)] *)
Definition SetBasicAuth (req : Request) (username password : string) : Request :=
  setHeader req "Authorization" ("Basic " ++ basicAuth username password).

(** [for k, v := range headers { req.Header.Set(k, v) }]; the list holds
    the entries of the map in the order in which [range] visits them. *)
Definition rangeSet (req : Request) (headers : list (string * string)) : Request :=
  fold_left (fun r kv => setHeader r (fst kv) (snd kv)) headers req.

(** *** The session *)

(** [http.Client] with its transport; only the TLS setting is configured. *)
Record Client := mkClient {
  InsecureSkipVerify : bool;
}.

Record ecsSession := mkSession {
  Username : string;
  Password : string;
  Endpoint : string;
  Token : string;
  c : Client;
}.

(** The network: what the transport of the client answers to a request, a
    response or a transport error. *)
Definition Net : Type := Request -> Response + error.

(** [Client.Do]: the answer of the transport.  The client never hands on
    a response with a nil [Body]: where the transport gave no body reader,
    the response gets a reader over zero bytes. *)
Definition Client_Do (net : Net) (cl : Client) (req : Request) : Response + error :=
  match net req with
  | inr err => inr err
  | inl resp =>
      match Body resp with
      | Some _ => inl resp
      | None =>
          inl (mkResponse (Status resp) (StatusCode resp) (RespHeader resp)
                 (Some (mkReadCloser [] None)))
      end
  end.

Definition TimeBufferInSeconds : Z := 300.

(** *** Request methods *)

(** [var bodyBytes []byte; if resp.Body != nil { bodyBytes, err = io.ReadAll(resp.Body) }] *)
Definition readBody (resp : Response) : Bytes * option error :=
  match Body resp with
  | Some body => io_ReadAll body
  | None => (None, None)
  end.

(** Lines 40-64 of [Get], and the same lines of [Post] and [Put]: what is
    returned for the answer of [Client.Do], given the test on the status
    code. *)
Definition respond (rejected : Z -> bool) (r : Response + error) : Bytes * option error :=
  match r with
  | inr err => (None, Some err)
  | inl resp =>
      match readBody resp with
      | (_, Some err) => (None, Some err)
      | (bodyBytes, None) =>
          if rejected (StatusCode resp) then
            match bodyBytes with
            | Some b => (None, Some (errors_ParseError b))
            | None => (None, Some (errors_Wrap (Status resp)))
            end
          else (bodyBytes, None)
      end
  end.

(** [resp.StatusCode != http.StatusOK] *)
Definition GetRejects (code : Z) : bool := negb (code =? http.StatusOK).

(** [resp.StatusCode != http.StatusOK && resp.StatusCode != http.StatusCreated] *)
Definition PostRejects (code : Z) : bool :=
  negb (code =? http.StatusOK) && negb (code =? http.StatusCreated).

(** [q.Encode()] into the URL when [q] is not nil. *)
Definition withQuery (req : Request) (q : option Values) : Request :=
  match q with
  | Some v => setRawQuery req (Values_Encode v)
  | None => req
  end.

(** Lines 29-38 of [Get]: the request that is dispatched; [None] when the
    nil request is dereferenced. *)
Definition Get_request (s : ecsSession) (subUrl : string) (q : option Values)
    (headers : list (string * string)) : option Request :=
  let '(req, _) := NewRequest "GET" (Endpoint s ++ subUrl) None in
  match req with
  | None => None
  | Some req =>
      let req := withQuery req q in
      let req := setHeader req "X-SDS-AUTH-TOKEN" (Token s) in
      let req := setHeader req "Accept" "application/json" in
      Some (rangeSet req headers)
  end.

Definition Get (net : Net) (s : ecsSession) (subUrl : string) (q : option Values)
    (headers : list (string * string)) : Outcome (Bytes * option error) :=
  match Get_request s subUrl q headers with
  | None => Panic
  | Some req => Return (respond GetRejects (Client_Do net (c s) req))
  end.

(** Lines 68-78 of [Post]. *)
Definition Post_request (s : ecsSession) (subUrl : string) (d : Bytes) (q : option Values)
    (headers : list (string * string)) : option Request :=
  let '(req, _) := NewRequest "POST" (Endpoint s ++ subUrl) (bytes_NewReader d) in
  match req with
  | None => None
  | Some req =>
      let req := withQuery req q in
      let req := setHeader req "X-SDS-AUTH-TOKEN" (Token s) in
      let req := setHeader req "Content-Type" "application/json" in
      let req := setHeader req "Accept" "application/json" in
      Some (rangeSet req headers)
  end.

Definition Post (net : Net) (s : ecsSession) (subUrl : string) (d : Bytes) (q : option Values)
    (headers : list (string * string)) : Outcome (Bytes * option error) :=
  match Post_request s subUrl d q headers with
  | None => Panic
  | Some req => Return (respond PostRejects (Client_Do net (c s) req))
  end.

(** Lines 107-113 of [Put]. *)
Definition Put_request (s : ecsSession) (subUrl : string) (d : Bytes) (q : option Values)
  : option Request :=
  let '(req, _) := NewRequest "PUT" (Endpoint s ++ subUrl) (bytes_NewReader d) in
  match req with
  | None => None
  | Some req =>
      let req := withQuery req q in
      let req := setHeader req "X-SDS-AUTH-TOKEN" (Token s) in
      let req := setHeader req "Content-Type" "application/json" in
      let req := setHeader req "Accept" "application/json" in
      Some req
  end.

Definition Put (net : Net) (s : ecsSession) (subUrl : string) (d : Bytes) (q : option Values)
  : Outcome (Bytes * option error) :=
  match Put_request s subUrl d q with
  | None => Panic
  | Some req => Return (respond PostRejects (Client_Do net (c s) req))
  end.

(** *** What a dispatched request carries *)

(** The request has exactly the value [value] under the header [key]. *)
Definition carries (req : Request) (key value : string) : Prop :=
  ReqHeader req !! textproto.CanonicalMIMEHeaderKey key = Some [value].

(** The caller's headers hold an entry for the header [key], under any
    spelling with the same canonical form. *)
Definition supplies (headers : list (string * string)) (key : string) : Prop :=
  exists kv,
    (In kv headers /\
     textproto.CanonicalMIMEHeaderKey (fst kv) = textproto.CanonicalMIMEHeaderKey key)%type.

(** The canonical names of the caller's headers. *)
Definition callerKeys (headers : list (string * string)) : gset string :=
  list_to_set (map (fun kv => textproto.CanonicalMIMEHeaderKey (fst kv)) headers).

(** *** Login and token refresh *)

(** The goroutine started by [performLogin]: it sleeps for [sleep]
    nanoseconds, calls [performLogin] again and ends the process with
    [log.Fatalln] when that fails (see [wake]). *)
Record Refresh := mkRefresh {
  sleep : Z;
}.

(** The first statements of the goroutine, up to [time.Sleep]. *)
Definition refreshAfter (age : Z) : Refresh :=
  let age := if TimeBufferInSeconds <? age then age - TimeBufferInSeconds else age in
  mkRefresh (time.seconds age).

(** What a call of [performLogin] leaves behind: the returned error, the
    session as it is when the call returns, and the goroutines started. *)
Record LoginResult := mkLoginResult {
  login_err : option error;
  login_session : ecsSession;
  login_spawned : list Refresh;
}.

(** Lines 147-148: the login request; [None] when [SetBasicAuth]
    dereferences the nil request. *)
Definition login_request (s : ecsSession) : option Request :=
  let '(req, _) := NewRequest "GET" (Endpoint s ++ "/login") None in
  match req with
  | None => None
  | Some req => Some (SetBasicAuth req (Username s) (Password s))
  end.

(** Lines 162-187: the token read from the headers and the refresh
    started for it. *)
Definition readToken (h : http.Header) : string * list Refresh :=
  if negb (http.Header_len h =? 0)%nat then
    let token := http.Header_Get h "X-SDS-AUTH-TOKEN" in
    let maxAge := http.Header_Get h "X-SDS-AUTH-MAX-AGE" in
    if negb (maxAge =? "")%string && negb (token =? "")%string then
      match strconv.ParseInt maxAge with
      | (_, Some _) => (token, [])
      | (age, None) => (token, [refreshAfter age])
      end
    else (token, [])
  else ("", []).

Definition performLogin (net : Net) (s : ecsSession) : Outcome LoginResult :=
  match login_request s with
  | None => Panic
  | Some req =>
      match Client_Do net (c s) req with
      | inr err => Return (mkLoginResult (Some err) s [])
      | inl resp =>
          if negb (StatusCode resp =? http.StatusOK) then
            Return (mkLoginResult
                      (Some (errors_Wrap "login request failed, check endpoint or credentials"))
                      s [])
          else
            let '(token, spawned) := readToken (RespHeader resp) in
            if negb (token =? "")%string then
              Return (mkLoginResult None
                        (mkSession (Username s) (Password s) (Endpoint s) token (c s))
                        spawned)
            else
              Return (mkLoginResult
                        (Some (errors_Wrap "Auth Token not available in response"))
                        s spawned)
      end
  end.

(** The result of [createEcsSession]: the two returned values and the
    goroutines that the login started. *)
Record Created := mkCreated {
  created_session : option ecsSession;
  created_err : option error;
  created_spawned : list Refresh;
}.

Definition createEcsSession (net : Net) (username password endpoint : string)
  : Outcome Created :=
  let s := mkSession username password endpoint "" (mkClient true) in
  match performLogin net s with
  | Panic => Panic
  | Return r =>
      match login_err r with
      | Some err => Return (mkCreated None (Some err) (login_spawned r))
      | None => Return (mkCreated (Some (login_session r)) None (login_spawned r))
      end
  end.

(** *** The running process

    One session shared by the caller and by the sleeping refresh
    goroutines.  Each step is one call of a request method by the caller,
    or the waking of one refresh; every step meets its own network. *)

Record Process := mkProcess {
  session : ecsSession;
  sleeping : list Refresh;
}.

Inductive ProcStatus :=
| Running (p : Process)
| Crashed   (* an unrecovered panic *)
| Exited.   (* log.Fatalln *)

(** A call of one of the three request methods, with its arguments. *)
Inductive Call :=
| CallGet (subUrl : string) (q : option Values) (headers : list (string * string))
| CallPost (subUrl : string) (d : Bytes) (q : option Values) (headers : list (string * string))
| CallPut (subUrl : string) (d : Bytes) (q : option Values).

(** The request that the call dispatches. *)
Definition request (s : ecsSession) (call : Call) : option Request :=
  match call with
  | CallGet subUrl q headers => Get_request s subUrl q headers
  | CallPost subUrl d q headers => Post_request s subUrl d q headers
  | CallPut subUrl d q => Put_request s subUrl d q
  end.

(** The test that the method makes on the status code. *)
Definition rejects (call : Call) : Z -> bool :=
  match call with
  | CallGet _ _ _ => GetRejects
  | CallPost _ _ _ _ => PostRejects
  | CallPut _ _ _ => PostRejects
  end.

Definition invoke (net : Net) (s : ecsSession) (call : Call) : Outcome (Bytes * option error) :=
  match call with
  | CallGet subUrl q headers => Get net s subUrl q headers
  | CallPost subUrl d q headers => Post net s subUrl d q headers
  | CallPut subUrl d q => Put net s subUrl d q
  end.

(** The headers that the caller passes with a call; [Put] takes none. *)
Definition callHeaders (call : Call) : list (string * string) :=
  match call with
  | CallGet _ _ headers => headers
  | CallPost _ _ _ headers => headers
  | CallPut _ _ _ => []
  end.

Inductive Event :=
| Invoke (call : Call)
| Wake (i : nat).

(** The [i]-th sleeping goroutine finishes its sleep: lines 178-183. *)
Definition wake (net : Net) (p : Process) (i : nat) : ProcStatus :=
  match sleeping p !! i with
  | None => Running p
  | Some _ =>
      match performLogin net (session p) with
      | Panic => Crashed
      | Return r =>
          match login_err r with
          | Some _ => Exited
          | None =>
              Running (mkProcess (login_session r)
                         (delete i (sleeping p) ++ login_spawned r))
          end
      end
  end.

Definition called {A} (p : Process) (o : Outcome A) : ProcStatus :=
  match o with
  | Panic => Crashed
  | Return _ => Running p
  end.

Definition step (net : Net) (p : Process) (e : Event) : ProcStatus :=
  match e with
  | Invoke call => called p (invoke net (session p) call)
  | Wake i => wake net p i
  end.

Fixpoint run (trace : list (Net * Event)) (p : Process) : ProcStatus :=
  match trace with
  | [] => Running p
  | (net, e) :: rest =>
      match step net p e with
      | Running p' => run rest p'
      | st => st
      end
  end.

End Session.

(** ** A concrete set of collaborators

    Used to run the definitions on concrete inputs. *)

(** Modelled from the spec: the package [goecsclient/errors] is not among
    the sources; the spec gives it two entry points, parse bytes into a
    structured error object and wrap a bare status line into an error
    object.  Each is a constructor here, and [Foreign] stands for the
    errors of other packages (transport, reading, URL parsing). *)
Inductive ecsError :=
| Wrapped (msg : string)
| Structured (body : list Byte.byte)
| Foreign (msg : string).

(** The URL of a request: its text and its [RawQuery] field. *)
Record plainURL := mkPlainURL {
  urlText : string;
  RawQuery : string;
}.

(** [stringContainsCTLByte] of net/url. *)
Fixpoint stringContainsCTLByte (s : string) : bool :=
  match s with
  | EmptyString => false
  | String b r =>
      (textproto.byteZ b <? 32) || (textproto.byteZ b =? 127) || stringContainsCTLByte r
  end.

(** The first check of [url.Parse]: a control character is refused.  Its
    other checks are left out. *)
Definition plainParse (rawURL : string) : plainURL + ecsError :=
  if stringContainsCTLByte rawURL
  then inr (Foreign "net/url: invalid control character in URL")
  else inl (mkPlainURL rawURL "").

(** Query values as [key=value] pairs joined by [&], without escaping. *)
Fixpoint plainEncode (v : list (string * string)) : string :=
  match v with
  | [] => ""
  | [(k, x)] => k ++ "=" ++ x
  | (k, x) :: r => k ++ "=" ++ x ++ "&" ++ plainEncode r
  end.

#[local] Instance plain : Collaborators := {|
  error := ecsError;
  URL := plainURL;
  Values := list (string * string);
  url_Parse := plainParse;
  URL_setRawQuery := fun u raw => mkPlainURL (urlText u) raw;
  Values_Encode := plainEncode;
  basicAuth := fun username password => username ++ ":" ++ password;
  errors_Wrap := Wrapped;
  errors_ParseError := Structured;
|}.

(** A session against [https://ecs.local:4443] holding token [abc]. *)
Definition demoSession : ecsSession :=
  mkSession "admin" "secret" "https://ecs.local:4443" "abc" (mkClient true).

(** A response with an empty body: the reader is there and delivers no byte. *)
Definition emptyBody : option (@ReadCloser plain) := Some (mkReadCloser [] None).

(** A login answer with the given status, token and max-age headers. *)
Definition loginAnswer (code : Z) (status token maxAge : string) : @Response plain :=
  mkResponse status code
    (<["X-Sds-Auth-Token" := [token]]> (<["X-Sds-Auth-Max-Age" := [maxAge]]> ∅))
    emptyBody.

(** A network that gives the same answer to every request. *)
Definition always (r : @Response plain + ecsError) : @Net plain := fun _ => r.

(** An answer without headers other than those given. *)
Definition answer (code : Z) (status : string) (h : http.Header) (body : option (@ReadCloser plain))
  : @Response plain :=
  mkResponse status code h body.
(** The session as [createEcsSession] builds it, before the login. *)
Definition newSession : ecsSession :=
  mkSession "admin" "secret" "https://ecs.local:4443" "" (mkClient true).

(** A session whose endpoint holds a line feed, which [url.Parse] refuses. *)
Definition brokenSession : ecsSession :=
  mkSession "admin" "secret" (String (ascii_of_nat 10) "ecs.local") "abc" (mkClient true).

(** The process that a login answered with token [abc] and max-age [400]
    leaves: one refresh sleeping 100 seconds. *)
Definition demoProcess : Process := mkProcess demoSession [mkRefresh 100000000000].

(** The service when it hands out the token [xyz] with max-age [400]. *)
Definition renewing : @Net plain := always (inl (loginAnswer 200 "200 OK" "xyz" "400")).

(** The refresh wakes and logs in, then the caller fetches a bucket. *)
Definition demoTrace : list (@Net plain * @Event plain) :=
  [(renewing, Wake 0);
   (always (inl (answer 200 "200 OK" ∅ emptyBody)), Invoke (CallGet "/object/bucket" None []))].

Example canon_token :
textproto.CanonicalMIMEHeaderKey "X-SDS-AUTH-TOKEN" = "X-Sds-Auth-Token".
Proof. reflexivity. Qed.

Example canon_lower :
textproto.CanonicalMIMEHeaderKey "accept" = "Accept".
Proof. reflexivity. Qed.

Example canon_space :
textproto.CanonicalMIMEHeaderKey "x y" = "x y".
Proof. reflexivity. Qed.

Example parse_400 : strconv.ParseInt "400" = (400, None).
Proof. reflexivity. Qed.

Example parse_neg : strconv.ParseInt "-5" = (-5, None).
Proof. reflexivity. Qed.

Example parse_min : strconv.ParseInt "-9223372036854775808" = (- 2 ^ 63, None).
Proof. vm_compute. reflexivity. Qed.

Example parse_big : strconv.ParseInt "9223372036854775808" = (2 ^ 63 - 1, Some strconv.ErrRange).
Proof. vm_compute. reflexivity. Qed.

Example parse_bad : strconv.ParseInt "12h" = (0, Some strconv.ErrSyntax).
Proof. reflexivity. Qed.

Example login_400 :
  performLogin (always (inl (loginAnswer 200 "200 OK" "abc" "400")))
    newSession
  = Return (mkLoginResult None demoSession [mkRefresh 100000000000]).
Proof. vm_compute. reflexivity. Qed.

(** * Properties *)

(** Beyond 9223372036 seconds the int64 product wraps around: this
    [Duration] is negative and [time.Sleep] returns at once. *)
Example refresh_wraps :
  refreshAfter (9223372037 + 300) = mkRefresh (- 9223372036709551616)
  /\ time.Sleep_pause (sleep (refreshAfter (9223372037 + 300))) = 0.
Proof. split; vm_compute; reflexivity. Qed.

Section LoginProperties.

Context `{L : Collaborators}.

Lemma Header_Get_no_headers (h : http.Header) key :
  http.Header_len h = 0%nat -> http.Header_Get h key = "".
Proof.
  intros Hlen. apply map_size_empty_inv in Hlen. subst h.
  unfold http.Header_Get. now rewrite lookup_empty.
Qed.

(** The token that [performLogin] works with is the value of the token
    header, also when the response has no header at all. *)
Lemma readToken_token (h : http.Header) :
  fst (readToken h) = http.Header_Get h "X-SDS-AUTH-TOKEN".
Proof.
  unfold readToken.
  destruct (http.Header_len h =? 0)%nat eqn:Hlen; simpl.
  - apply Nat.eqb_eq in Hlen. symmetry. now apply Header_Get_no_headers.
  - destruct (negb _ && negb _); [|reflexivity].
    now destruct (strconv.ParseInt _) as [age [e|]].
Qed.

(** The goroutines started for a header map. *)
Lemma readToken_spawned (h : http.Header) :
  snd (readToken h) =
    if (http.Header_Get h "X-SDS-AUTH-TOKEN" =? "")%string then []
    else match strconv.ParseInt (http.Header_Get h "X-SDS-AUTH-MAX-AGE") with
         | (age, None) => [refreshAfter age]
         | (_, Some _) => []
         end.
Proof.
  unfold readToken.
  destruct (http.Header_len h =? 0)%nat eqn:Hlen; simpl.
  - apply Nat.eqb_eq in Hlen. now rewrite Header_Get_no_headers.
  - destruct (http.Header_Get h "X-SDS-AUTH-TOKEN" =? "")%string; simpl.
    + now rewrite andb_false_r.
    + rewrite andb_true_r.
      destruct (http.Header_Get h "X-SDS-AUTH-MAX-AGE" =? "")%string eqn:Hage; simpl.
      * apply String.eqb_eq in Hage. now rewrite Hage.
      * now destruct (strconv.ParseInt _) as [age [e|]].
Qed.

(** [performLogin] once its request is built, with the header scan
    replaced by what it computes. *)
Lemma performLogin_unfold net s req :
  login_request s = Some req ->
  performLogin net s =
    match Client_Do net (c s) req with
    | inr err => Return (mkLoginResult (Some err) s [])
    | inl resp =>
        if negb (StatusCode resp =? http.StatusOK) then
          Return (mkLoginResult
                    (Some (errors_Wrap "login request failed, check endpoint or credentials"))
                    s [])
        else
          let token := http.Header_Get (RespHeader resp) "X-SDS-AUTH-TOKEN" in
          if (token =? "")%string then
            Return (mkLoginResult
                      (Some (errors_Wrap "Auth Token not available in response")) s [])
          else
            Return (mkLoginResult None
                      (mkSession (Username s) (Password s) (Endpoint s) token (c s))
                      (snd (readToken (RespHeader resp))))
    end.
Proof.
  intros Hreq. unfold performLogin. rewrite Hreq.
  destruct (Client_Do net (c s) req) as [resp|err]; [|reflexivity].
  destruct (negb (StatusCode resp =? http.StatusOK)); [reflexivity|].
  pose proof (readToken_token (RespHeader resp)) as Htok.
  pose proof (readToken_spawned (RespHeader resp)) as Hsp.
  destruct (readToken (RespHeader resp)) as [token spawned]; simpl in *.
  subst token. cbv zeta.
  destruct (http.Header_Get (RespHeader resp) "X-SDS-AUTH-TOKEN" =? "")%string;
    simpl; congruence.
Qed.

Lemma performLogin_panics net s :
  login_request s = None -> performLogin net s = Panic.
Proof. intros Hreq. unfold performLogin. now rewrite Hreq. Qed.

(** C3: [performLogin] returns without error exactly when a response came
    back with status 200 and a non-empty [X-SDS-AUTH-TOKEN] header, and the
    session it leaves on return then holds that header value as [Token]. *)
Theorem performLogin_success_iff net s :
  ((exists r, performLogin net s = Return r /\ login_err r = None) <->
   (exists req resp,
      login_request s = Some req /\ Client_Do net (c s) req = inl resp /\
      StatusCode resp = http.StatusOK /\
      http.Header_Get (RespHeader resp) "X-SDS-AUTH-TOKEN" <> ""))
  /\ (forall r, performLogin net s = Return r -> login_err r = None ->
      exists req resp,
        login_request s = Some req /\ Client_Do net (c s) req = inl resp /\
        Token (login_session r) = http.Header_Get (RespHeader resp) "X-SDS-AUTH-TOKEN").
Proof.
  destruct (login_request s) as [req|] eqn:Hreq.
  2:{ rewrite (performLogin_panics net s Hreq). split.
      - split; [intros (r & Hr & _); discriminate
               | intros (req & resp & Hq & _); discriminate].
      - intros r Hr; discriminate. }
  rewrite (performLogin_unfold net s req Hreq).
  destruct (Client_Do net (c s) req) as [resp|err] eqn:Hdo.
  2:{ split.
      - split; [intros (r & Hr & He); inversion Hr; subst; discriminate
               | intros (req' & resp & Hq & Hd & _); inversion Hq; subst; congruence].
      - intros r Hr He; inversion Hr; subst; discriminate. }
  destruct (StatusCode resp =? http.StatusOK) eqn:Hcode; simpl.
  2:{ apply Z.eqb_neq in Hcode. split.
      - split; [intros (r & Hr & He); inversion Hr; subst; discriminate|].
        intros (req' & resp' & Hq & Hd & Hc & _).
        inversion Hq; subst. congruence.
      - intros r Hr He; inversion Hr; subst; discriminate. }
  apply Z.eqb_eq in Hcode.
  destruct (http.Header_Get (RespHeader resp) "X-SDS-AUTH-TOKEN" =? "")%string eqn:Htok.
  - apply String.eqb_eq in Htok. split.
    + split; [intros (r & Hr & He); inversion Hr; subst; discriminate|].
      intros (req' & resp' & Hq & Hd & _ & Hne).
      inversion Hq; subst. congruence.
    + intros r Hr He; inversion Hr; subst; discriminate.
  - apply String.eqb_neq in Htok. split.
    + split; [|intros _; eexists; split; [reflexivity|reflexivity]].
      intros _. exists req, resp. auto.
    + intros r Hr _. inversion Hr; subst; simpl. exists req, resp. auto.
Qed.

(** C4: the three kinds of failed login.  A transport error is returned as
    it is; a status other than 200 gives the wrapped message
    [login request failed, check endpoint or credentials]; status 200
    without a token value gives the wrapped message
    [Auth Token not available in response].  The session is left as it was
    and no goroutine is started. *)
Theorem performLogin_failure_classes net s req
    (Hreq : login_request s = Some req) :
  (forall err, Client_Do net (c s) req = inr err ->
     performLogin net s = Return (mkLoginResult (Some err) s []))
  /\ (forall resp, Client_Do net (c s) req = inl resp ->
        StatusCode resp <> http.StatusOK ->
        performLogin net s =
          Return (mkLoginResult
                    (Some (errors_Wrap "login request failed, check endpoint or credentials"))
                    s []))
  /\ (forall resp, Client_Do net (c s) req = inl resp ->
        StatusCode resp = http.StatusOK ->
        http.Header_Get (RespHeader resp) "X-SDS-AUTH-TOKEN" = "" ->
        performLogin net s =
          Return (mkLoginResult
                    (Some (errors_Wrap "Auth Token not available in response")) s [])).
Proof.
  rewrite (performLogin_unfold net s req Hreq).
  split; [|split].
  - intros err Hdo. now rewrite Hdo.
  - intros resp Hdo Hcode. rewrite Hdo.
    apply Z.eqb_neq in Hcode. now rewrite Hcode.
  - intros resp Hdo Hcode Htok. rewrite Hdo.
    apply Z.eqb_eq in Hcode. rewrite Hcode. simpl.
    now rewrite Htok.
Qed.

(** C8: when the max-age header is missing, or its value is not an
    integer for [strconv.ParseInt], a login with status 200 and a token
    succeeds, stores the token and starts no refresh. *)
Theorem performLogin_without_max_age net s req resp
    (Hreq : login_request s = Some req)
    (Hdo : Client_Do net (c s) req = inl resp)
    (Hcode : StatusCode resp = http.StatusOK)
    (Htok : http.Header_Get (RespHeader resp) "X-SDS-AUTH-TOKEN" <> "")
    (Hage : RespHeader resp !! textproto.CanonicalMIMEHeaderKey "X-SDS-AUTH-MAX-AGE" = None
            \/ snd (strconv.ParseInt (http.Header_Get (RespHeader resp) "X-SDS-AUTH-MAX-AGE"))
               <> None) :
  performLogin net s =
    Return (mkLoginResult None
              (mkSession (Username s) (Password s) (Endpoint s)
                 (http.Header_Get (RespHeader resp) "X-SDS-AUTH-TOKEN") (c s))
              []).
Proof.
  rewrite (performLogin_unfold net s req Hreq), Hdo.
  apply Z.eqb_eq in Hcode. rewrite Hcode. simpl.
  apply String.eqb_neq in Htok. rewrite Htok.
  rewrite readToken_spawned, Htok.
  assert (Herr : snd (strconv.ParseInt
                        (http.Header_Get (RespHeader resp) "X-SDS-AUTH-MAX-AGE")) <> None).
  { destruct Hage as [Habs|Hbad]; [|exact Hbad].
    unfold http.Header_Get. rewrite Habs. discriminate. }
  destruct (strconv.ParseInt _) as [age [e|]]; [reflexivity|].
  now elim Herr.
Qed.

Lemma wrap64_small z : - 2 ^ 63 <= z < 2 ^ 63 -> wrap64 z = z.
Proof. intros Hz. unfold wrap64. rewrite Z.mod_small; lia. Qed.

(** A count of seconds that fits a [Duration] is converted exactly. *)
Lemma seconds_exact a :
  - 9223372036 <= a <= 9223372036 -> time.seconds a = a * time.Second.
Proof.
  intros Ha. unfold time.seconds, time.Second. apply wrap64_small. lia.
Qed.

(** C1 (amended): a successful login whose max-age header parses to [age]
    starts exactly one refresh.  It sleeps [age - 300] seconds when
    [age > 300], and [age] seconds otherwise, which is no pause at all for
    [age <= 0]; this for every [age] whose seconds fit a [Duration]. *)
Theorem performLogin_refresh_delay net s req resp age
    (Hreq : login_request s = Some req)
    (Hdo : Client_Do net (c s) req = inl resp)
    (Hcode : StatusCode resp = http.StatusOK)
    (Htok : http.Header_Get (RespHeader resp) "X-SDS-AUTH-TOKEN" <> "")
    (Hage : strconv.ParseInt (http.Header_Get (RespHeader resp) "X-SDS-AUTH-MAX-AGE")
            = (age, None))
    (Hfit : - 9223372036 <= age <= 9223372036 + TimeBufferInSeconds) :
  exists d,
    performLogin net s =
      Return (mkLoginResult None
                (mkSession (Username s) (Password s) (Endpoint s)
                   (http.Header_Get (RespHeader resp) "X-SDS-AUTH-TOKEN") (c s))
                [mkRefresh d])
    /\ time.Sleep_pause d =
         (if TimeBufferInSeconds <? age then age - TimeBufferInSeconds else Z.max 0 age)
         * time.Second.
Proof.
  exists (sleep (refreshAfter age)). split.
  - rewrite (performLogin_unfold net s req Hreq), Hdo.
    apply Z.eqb_eq in Hcode. rewrite Hcode. simpl.
    apply String.eqb_neq in Htok. rewrite Htok.
    now rewrite readToken_spawned, Htok, Hage.
  - unfold refreshAfter, TimeBufferInSeconds in *. simpl.
    destruct (300 <? age) eqn:Hgt.
    + apply Z.ltb_lt in Hgt. rewrite seconds_exact by lia.
      unfold time.Sleep_pause, time.Second. lia.
    + apply Z.ltb_ge in Hgt. rewrite seconds_exact by lia.
      unfold time.Sleep_pause, time.Second. lia.
Qed.

End LoginProperties.

Section RequestProperties.

Context `{L : Collaborators}.

(** *** The header map of a built request *)

Lemma setHeader_lookup req k v :
  ReqHeader (setHeader req k v) !! textproto.CanonicalMIMEHeaderKey k = Some [v].
Proof. simpl. unfold http.Header_Set. apply lookup_insert_eq. Qed.

Lemma setHeader_lookup_ne req k v key :
  textproto.CanonicalMIMEHeaderKey k <> key ->
  ReqHeader (setHeader req k v) !! key = ReqHeader req !! key.
Proof. intros Hne. simpl. unfold http.Header_Set. now apply lookup_insert_ne. Qed.

(** Caller headers whose canonical keys all differ from [key] leave the
    entry under [key] alone. *)
Lemma rangeSet_lookup_ne headers : forall req key,
  (forall kv, In kv headers -> textproto.CanonicalMIMEHeaderKey (fst kv) <> key) ->
  ReqHeader (rangeSet req headers) !! key = ReqHeader req !! key.
Proof.
  induction headers as [|[k v] rest IH]; intros req key Hkeys; [reflexivity|].
  unfold rangeSet in *. simpl. rewrite IH.
  - apply setHeader_lookup_ne. apply (Hkeys (k, v)). now left.
  - intros kv Hin. apply Hkeys. now right.
Qed.

(** The entry visited last for a canonical key decides its value. *)
Lemma rangeSet_lookup_last before k v after req :
  (forall kv, In kv after ->
     textproto.CanonicalMIMEHeaderKey (fst kv) <> textproto.CanonicalMIMEHeaderKey k) ->
  ReqHeader (rangeSet req (before ++ (k, v) :: after))
    !! textproto.CanonicalMIMEHeaderKey k = Some [v].
Proof.
  intros Hafter. unfold rangeSet. rewrite fold_left_app. simpl.
  fold (rangeSet (setHeader (fold_left (fun r kv => setHeader r (fst kv) (snd kv)) before req) k v)
          after).
  rewrite rangeSet_lookup_ne by exact Hafter.
  apply setHeader_lookup.
Qed.

Lemma Header_Get_lookup (h : http.Header) key v :
  h !! textproto.CanonicalMIMEHeaderKey key = Some [v] -> http.Header_Get h key = v.
Proof. intros Hl. unfold http.Header_Get. now rewrite Hl. Qed.

(** *** Classification of the answer *)

Lemma respond_transport rejected err :
  respond rejected (inr err) = (None, Some err).
Proof. reflexivity. Qed.

Lemma respond_no_error rejected r bytes :
  respond rejected r = (bytes, None) <->
  exists resp, r = inl resp /\ rejected (StatusCode resp) = false /\
               readBody resp = (bytes, None).
Proof.
  split.
  - destruct r as [resp|err]; simpl; [|discriminate].
    destruct (readBody resp) as [b [e|]] eqn:Hread; [discriminate|].
    destruct (rejected (StatusCode resp)) eqn:Hrej.
    + destruct b; discriminate.
    + intros Heq. inversion Heq; subst. now exists resp.
  - intros (resp & -> & Hrej & Hread). simpl. now rewrite Hread, Hrej.
Qed.

Lemma GetRejects_false code : GetRejects code = false <-> code = http.StatusOK.
Proof.
  unfold GetRejects. rewrite negb_false_iff. apply Z.eqb_eq.
Qed.

Lemma PostRejects_false code :
  PostRejects code = false <-> code = http.StatusOK \/ code = http.StatusCreated.
Proof.
  unfold PostRejects.
  destruct (Z.eqb_spec code http.StatusOK), (Z.eqb_spec code http.StatusCreated);
    simpl; intuition congruence.
Qed.

(** A response that [Client.Do] hands on has a body reader. *)
Lemma Client_Do_body net cl req resp :
  Client_Do net cl req = inl resp -> exists body, Body resp = Some body.
Proof.
  unfold Client_Do. destruct (net req) as [r|err]; [|discriminate].
  destruct (Body r) as [body|] eqn:Hbody; intros [= <-]; simpl; eauto.
Qed.

(** The answer is returned without error exactly when the status passes
    the test and the body was read to its end; the bytes are those of the
    body. *)
Lemma respond_bytes rejected net cl req bytes :
  respond rejected (Client_Do net cl req) = (bytes, None) <->
  exists resp body,
    Client_Do net cl req = inl resp /\ rejected (StatusCode resp) = false /\
    Body resp = Some body /\ failure body = None /\ bytes = Some (content body).
Proof.
  rewrite respond_no_error. split.
  - intros (resp & Hdo & Hrej & Hread).
    destruct (Client_Do_body net cl req resp Hdo) as [body Hbody].
    exists resp, body. unfold readBody in Hread. rewrite Hbody in Hread.
    unfold io_ReadAll in Hread. injection Hread as <- Hfail. auto.
  - intros (resp & body & Hdo & Hrej & Hbody & Hfail & ->).
    exists resp. split; [exact Hdo|]. split; [exact Hrej|].
    unfold readBody. rewrite Hbody. unfold io_ReadAll. now rewrite Hfail.
Qed.

(** The two directions for a method whose request [req] was built, given
    the lemma that reads its status test. *)
Ltac by_status req test_false :=
      split;
      [ intros [= Hresp];
        apply respond_bytes in Hresp as (resp & body & Hdo & Hrej & Hbody & Hfail & Hbytes);
        apply test_false in Hrej;
        exists req, resp, body;
        split; [reflexivity|]; split; [exact Hdo|]; split; [exact Hrej|];
        split; [exact Hbody|]; split; [exact Hfail | exact Hbytes]
      | intros (req' & resp & body & Hreq & Hdo & Hcode & Hbody & Hfail & Hbytes);
        inversion Hreq; subst req'; f_equal;
        apply respond_bytes; exists resp, body;
        split; [exact Hdo|]; split; [apply test_false; exact Hcode|];
        split; [exact Hbody|]; split; [exact Hfail | exact Hbytes] ].

Ltac no_request :=
  split; [discriminate | intros (req & resp & body & Hreq & _); discriminate].

(** C5: [Get] returns without error exactly for status 200, and [Post]
    and [Put] exactly for status 200 or 201, of a response whose body was
    read to its end; the bytes returned are then exactly the bytes of that
    body, which may be none. *)
Theorem success_statuses net s subUrl d q headers bytes :
  (Get net s subUrl q headers = Return (bytes, None) <->
   exists req resp body,
     Get_request s subUrl q headers = Some req /\
     Client_Do net (c s) req = inl resp /\
     StatusCode resp = 200 /\
     Body resp = Some body /\ failure body = None /\ bytes = Some (content body))
  /\ (Post net s subUrl d q headers = Return (bytes, None) <->
      exists req resp body,
        Post_request s subUrl d q headers = Some req /\
        Client_Do net (c s) req = inl resp /\
        (StatusCode resp = 200 \/ StatusCode resp = 201) /\
        Body resp = Some body /\ failure body = None /\ bytes = Some (content body))
  /\ (Put net s subUrl d q = Return (bytes, None) <->
      exists req resp body,
        Put_request s subUrl d q = Some req /\
        Client_Do net (c s) req = inl resp /\
        (StatusCode resp = 200 \/ StatusCode resp = 201) /\
        Body resp = Some body /\ failure body = None /\ bytes = Some (content body)).
Proof.
  split; [|split].
  - unfold Get. destruct (Get_request s subUrl q headers) as [req|];
      [|no_request].
    by_status req GetRejects_false.
  - unfold Post. destruct (Post_request s subUrl d q headers) as [req|];
      [|no_request].
    by_status req PostRejects_false.
  - unfold Put. destruct (Put_request s subUrl d q) as [req|];
      [|no_request].
    by_status req PostRejects_false.
Qed.

Lemma invoke_respond net s call req :
  request s call = Some req ->
  invoke net s call = Return (respond (rejects call) (Client_Do net (c s) req)).
Proof.
  destruct call; simpl; intros Hreq.
  - unfold Get. now rewrite Hreq.
  - unfold Post. now rewrite Hreq.
  - unfold Put. now rewrite Hreq.
Qed.

(** Once a body was read, the error of a rejected call is made from the
    bytes alone: two answers with the same body and different status lines
    give the same error. *)
Lemma rejected_error_ignores_status net1 net2 s call req resp1 resp2 body :
  request s call = Some req ->
  Client_Do net1 (c s) req = inl resp1 -> Client_Do net2 (c s) req = inl resp2 ->
  rejects call (StatusCode resp1) = true -> rejects call (StatusCode resp2) = true ->
  Body resp1 = Some body -> Body resp2 = Some body -> failure body = None ->
  invoke net1 s call = invoke net2 s call.
Proof.
  intros Hreq Hdo1 Hdo2 Hrej1 Hrej2 Hb1 Hb2 Hfail.
  rewrite !(invoke_respond _ s call req Hreq), Hdo1, Hdo2. simpl.
  unfold readBody. rewrite Hb1, Hb2. simpl. now rewrite Hfail, Hrej1, Hrej2.
Qed.

(** C2: what the code does for a rejected status.  The response that
    [Client.Do] hands on always has a body reader, so the test
    [bodyBytes != nil] passes whenever the body was read to its end: the
    error returned is the one parsed from the bytes read, for an empty body
    the one parsed from zero bytes, and the line that wraps [resp.Status]
    is never reached. *)
Theorem rejected_status_parses_body net s call req resp
    (Hreq : request s call = Some req)
    (Hdo : Client_Do net (c s) req = inl resp)
    (Hrej : rejects call (StatusCode resp) = true) :
  exists body,
    Body resp = Some body
    /\ (failure body = None ->
        invoke net s call = Return (None, Some (errors_ParseError (content body))))
    /\ (failure body = None -> content body = [] ->
        invoke net s call = Return (None, Some (errors_ParseError []))).
Proof.
  destruct (Client_Do_body net (c s) req resp Hdo) as [body Hbody].
  exists body. split; [exact Hbody|].
  assert (Hparse : failure body = None ->
                   invoke net s call =
                     Return (None, Some (errors_ParseError (content body)))).
  { intros Hfail. rewrite (invoke_respond net s call req Hreq), Hdo. simpl.
    unfold readBody. rewrite Hbody. simpl. now rewrite Hfail, Hrej. }
  split; [exact Hparse|].
  intros Hfail Hempty. rewrite <- Hempty. now apply Hparse.
Qed.

End RequestProperties.

Section DispatchProperties.

Context `{L : Collaborators}.

Lemma withQuery_header req q : ReqHeader (withQuery req q) = ReqHeader req.
Proof. now destruct q. Qed.

Lemma carries_set req k v : carries (setHeader req k v) k v.
Proof. apply setHeader_lookup. Qed.

Lemma carries_set_ne req k v key value :
  textproto.CanonicalMIMEHeaderKey k <> textproto.CanonicalMIMEHeaderKey key ->
  carries req key value -> carries (setHeader req k v) key value.
Proof.
  unfold carries. intros Hne Hc. now rewrite setHeader_lookup_ne.
Qed.

Lemma carries_rangeSet req headers key value :
  ~ supplies headers key ->
  carries req key value -> carries (rangeSet req headers) key value.
Proof.
  unfold carries. intros Hno Hc. rewrite rangeSet_lookup_ne; [exact Hc|].
  intros kv Hin Heq. apply Hno. now exists kv.
Qed.

Lemma carries_Get req key value : carries req key value -> http.Header_Get (ReqHeader req) key = value.
Proof. apply Header_Get_lookup. Qed.

(** Distinct header names of the code stay distinct in canonical form. *)
Ltac names_differ := vm_compute; discriminate.

(** C7 (amended): a [Put] request always carries the session token under
    [X-SDS-AUTH-TOKEN], [Accept: application/json] and
    [Content-Type: application/json], and [Put] takes no caller headers.
    [Get] and [Post] requests carry the token and [Accept], and [Post] also
    [Content-Type], each as long as the caller's headers do not supply that
    same header; the caller's headers are merged in, the entry visited last
    for a header name giving its value. *)
Theorem dispatched_headers s subUrl d q headers :
  (forall req, Put_request s subUrl d q = Some req ->
     carries req "X-SDS-AUTH-TOKEN" (Token s) /\
     carries req "Accept" "application/json" /\
     carries req "Content-Type" "application/json")
  /\ (forall req, Post_request s subUrl d q headers = Some req ->
      (~ supplies headers "X-SDS-AUTH-TOKEN" -> carries req "X-SDS-AUTH-TOKEN" (Token s)) /\
      (~ supplies headers "Accept" -> carries req "Accept" "application/json") /\
      (~ supplies headers "Content-Type" -> carries req "Content-Type" "application/json"))
  /\ (forall req, Get_request s subUrl q headers = Some req ->
      (~ supplies headers "X-SDS-AUTH-TOKEN" -> carries req "X-SDS-AUTH-TOKEN" (Token s)) /\
      (~ supplies headers "Accept" -> carries req "Accept" "application/json"))
  /\ (forall req,
        Get_request s subUrl q headers = Some req \/
        Post_request s subUrl d q headers = Some req ->
      forall before k v after,
        headers = (before ++ (k, v) :: after)%list -> ~ supplies after k ->
        carries req k v).
Proof.
  split; [|split; [|split]].
  - unfold Put_request, NewRequest.
    destruct (url_Parse (Endpoint s ++ subUrl)) as [u|e]; [|discriminate].
    intros req [= <-]. split; [|split].
    + apply carries_set_ne; [names_differ|].
      apply carries_set_ne; [names_differ|]. apply carries_set.
    + apply carries_set.
    + apply carries_set_ne; [names_differ|]. apply carries_set.
  - unfold Post_request, NewRequest.
    destruct (url_Parse (Endpoint s ++ subUrl)) as [u|e]; [|discriminate].
    intros req [= <-]. split; [|split]; intros Hno; apply carries_rangeSet; try exact Hno.
    + apply carries_set_ne; [names_differ|].
      apply carries_set_ne; [names_differ|]. apply carries_set.
    + apply carries_set.
    + apply carries_set_ne; [names_differ|]. apply carries_set.
  - unfold Get_request, NewRequest.
    destruct (url_Parse (Endpoint s ++ subUrl)) as [u|e]; [|discriminate].
    intros req [= <-]. split; intros Hno; apply carries_rangeSet; try exact Hno.
    + apply carries_set_ne; [names_differ|]. apply carries_set.
    + apply carries_set.
  - intros req Hreq before k v after -> Hno.
    assert (Hlast : forall base, carries (rangeSet base (before ++ (k, v) :: after)) k v).
    { intros base. apply rangeSet_lookup_last.
      intros kv Hin Heq. apply Hno. now exists kv. }
    destruct Hreq as [Hreq|Hreq]; revert Hreq.
    + unfold Get_request, NewRequest.
      destruct (url_Parse (Endpoint s ++ subUrl)) as [u|e]; [|discriminate].
      intros [= <-]. apply Hlast.
    + unfold Post_request, NewRequest.
      destruct (url_Parse (Endpoint s ++ subUrl)) as [u|e]; [|discriminate].
      intros [= <-]. apply Hlast.
Qed.

(** C9: the error of [http.NewRequest] is dropped.  When the URL of the
    request does not parse, [NewRequest] gives the nil request, and [Get],
    [Post], [Put] and [performLogin] panic on it: none of them returns, so
    no error reaches the caller, and [createEcsSession] panics with its
    login. *)
Theorem nil_request_panics net s subUrl d q headers :
  ((exists e, url_Parse (Endpoint s ++ subUrl) = inr e) ->
     (forall method body, fst (NewRequest method (Endpoint s ++ subUrl) body) = None) /\
     Get net s subUrl q headers = Panic /\
     Post net s subUrl d q headers = Panic /\
     Put net s subUrl d q = Panic)
  /\ ((exists e, url_Parse (Endpoint s ++ "/login") = inr e) ->
      (forall method body, fst (NewRequest method (Endpoint s ++ "/login") body) = None) /\
      performLogin net s = Panic /\
      createEcsSession net (Username s) (Password s) (Endpoint s) = Panic).
Proof.
  split.
  - intros [e He].
    unfold Get, Post, Put, Get_request, Post_request, Put_request, NewRequest.
    rewrite He. repeat split.
  - intros [e He].
    unfold createEcsSession, performLogin, login_request, NewRequest. simpl.
    rewrite He. repeat split.
Qed.

End DispatchProperties.

Section ProcessProperties.

Context `{L : Collaborators}.

(** A login that succeeds replaces [Token], and nothing else, by a
    non-empty value; a login that fails leaves the session as it was. *)
Lemma performLogin_session net s r :
  performLogin net s = Return r ->
  match login_err r with
  | None => exists token, token <> "" /\
              login_session r = mkSession (Username s) (Password s) (Endpoint s) token (c s)
  | Some _ => login_session r = s
  end.
Proof.
  destruct (login_request s) as [req|] eqn:Hreq.
  2:{ rewrite (performLogin_panics net s Hreq). discriminate. }
  rewrite (performLogin_unfold net s req Hreq).
  destruct (Client_Do net (c s) req) as [resp|err].
  - destruct (negb (StatusCode resp =? http.StatusOK)).
    + intros [= <-]. reflexivity.
    + cbv zeta.
      destruct (http.Header_Get (RespHeader resp) "X-SDS-AUTH-TOKEN" =? "")%string eqn:Htok.
      * intros [= <-]. reflexivity.
      * intros [= <-]. simpl. apply String.eqb_neq in Htok. eauto.
  - intros [= <-]. reflexivity.
Qed.

Lemma performLogin_token net s r :
  performLogin net s = Return r -> login_err r = None ->
  Token (login_session r) <> "".
Proof.
  intros Hlogin Herr. apply performLogin_session in Hlogin.
  rewrite Herr in Hlogin. destruct Hlogin as (token & Hne & ->). exact Hne.
Qed.

(** A request method never writes to the session. *)
Lemma step_invoke net p call p' :
  step net p (Invoke call) = Running p' -> p' = p.
Proof.
  simpl. unfold called. destruct (invoke net (session p) call); [discriminate|].
  now intros [= <-].
Qed.

Lemma step_token net p e p' :
  Token (session p) <> "" -> step net p e = Running p' -> Token (session p') <> "".
Proof.
  intros Hinv. destruct e as [call|i].
  - intros Hstep. apply step_invoke in Hstep. now subst p'.
  - simpl. unfold wake. destruct (sleeping p !! i) as [task|]; [|now intros [= <-]].
    destruct (performLogin net (session p)) as [|r] eqn:Hlogin; [discriminate|].
    destruct (login_err r) eqn:Herr; [discriminate|].
    intros [= <-]. simpl. now apply (performLogin_token net (session p)).
Qed.

Lemma run_token trace : forall p p',
  Token (session p) <> "" -> run trace p = Running p' -> Token (session p') <> "".
Proof.
  induction trace as [|[net e] rest IH]; intros p p' Hinv; simpl.
  - now intros [= <-].
  - destruct (step net p e) as [p1| |] eqn:Hstep; try discriminate.
    apply IH. now apply (step_token net p e).
Qed.

(** C6: a session returned by [createEcsSession] has a non-empty [Token],
    and so has the session of every process state reached from it by calls
    of [Get], [Post], [Put] and by refreshes.  A login changes the session
    only on success, and then only [Token], to a non-empty value; the
    request methods leave the process as it is. *)
Theorem token_never_empty net username password endpoint r s
    (Hcreate : createEcsSession net username password endpoint = Return r)
    (Hs : created_session r = Some s) :
  Token s <> ""
  /\ (forall trace p,
        run trace (mkProcess s (created_spawned r)) = Running p ->
        Token (session p) <> "")
  /\ (forall net' s0 r0, performLogin net' s0 = Return r0 ->
        match login_err r0 with
        | None => exists token, token <> "" /\
                    login_session r0 =
                      mkSession (Username s0) (Password s0) (Endpoint s0) token (c s0)
        | Some _ => login_session r0 = s0
        end)
  /\ (forall net' p call p', step net' p (Invoke call) = Running p' -> p' = p).
Proof.
  assert (Htok : Token s <> "").
  { unfold createEcsSession in Hcreate.
    destruct (performLogin net _) as [|r0] eqn:Hlogin; [discriminate|].
    destruct (login_err r0) eqn:Herr; injection Hcreate as <-; simpl in Hs;
      [discriminate|].
    injection Hs as <-. now apply (performLogin_token net _ r0 Hlogin). }
  split; [exact Htok|]. split; [|split].
  - intros trace p. now apply run_token.
  - intros net' s0 r0. apply performLogin_session.
  - intros net' p call p'. apply step_invoke.
Qed.

End ProcessProperties.

(** * The properties on concrete runs *)

(** A login answered [200], token [abc], max-age [400]: one refresh,
    after 100 seconds. *)
Lemma performLogin_refresh_delay_witness :
  let resp := loginAnswer 200 "200 OK" "abc" "400" in
  strconv.ParseInt (http.Header_Get (RespHeader resp) "X-SDS-AUTH-MAX-AGE") = (400, None)
  /\ exists d,
       performLogin (always (inl resp)) newSession =
         Return (mkLoginResult None demoSession [mkRefresh d])
       /\ time.Sleep_pause d = 100 * time.Second.
Proof.
  split; [vm_compute; reflexivity|].
  eapply (performLogin_refresh_delay (L := plain)
            (always (inl (loginAnswer 200 "200 OK" "abc" "400"))) newSession _
            (loginAnswer 200 "200 OK" "abc" "400") 400).
  - vm_compute. reflexivity.
  - reflexivity.
  - reflexivity.
  - vm_compute. discriminate.
  - vm_compute. reflexivity.
  - unfold TimeBufferInSeconds. lia.
Defined.

(** C1, as stated, fails: with max-age [100] the refresh sleeps the full
    100 seconds, where [max(0, 100 - 300)] is 0. *)
Lemma short_max_age_sleeps_in_full :
  let resp := loginAnswer 200 "200 OK" "abc" "100" in
  strconv.ParseInt (http.Header_Get (RespHeader resp) "X-SDS-AUTH-MAX-AGE") = (100, None)
  /\ performLogin (always (inl resp)) newSession =
       Return (mkLoginResult None demoSession [mkRefresh 100000000000])
  /\ time.Sleep_pause 100000000000 <> Z.max 0 (100 - 300) * time.Second.
Proof.
  split; [vm_compute; reflexivity|]. split; [vm_compute; reflexivity|].
  vm_compute. discriminate.
Qed.

(** A [Get] answered [404] with an empty body returns the error parsed
    from zero bytes. *)
Lemma rejected_status_parses_body_witness :
  let resp := answer 404 "404 Not Found" ∅ emptyBody in
  let net := always (inl resp) in
  let call := CallGet "/object/bucket" None [] in
  exists req,
    request demoSession call = Some req
    /\ Client_Do net (c demoSession) req = inl resp
    /\ rejects call (StatusCode resp) = true
    /\ invoke net demoSession call = Return (None, Some (Structured [])).
Proof.
  cbv zeta.
  destruct (request (L := plain) demoSession (CallGet "/object/bucket" None []))
    as [req|] eqn:Hreq; [|vm_compute in Hreq; discriminate].
  exists req. split; [reflexivity|]. split; [reflexivity|]. split; [reflexivity|].
  destruct (rejected_status_parses_body (L := plain)
              (always (inl (answer 404 "404 Not Found" ∅ emptyBody)))
              demoSession (CallGet "/object/bucket" None []) req
              (answer 404 "404 Not Found" ∅ emptyBody) Hreq eq_refl eq_refl)
    as (body & Hbody & _ & Hempty).
  injection Hbody as <-. exact (Hempty eq_refl eq_refl).
Defined.

(** The three methods on a [404] with an empty body: each returns the
    error parsed from zero bytes, not the wrapped status line. *)
Lemma empty_body_is_parsed :
  let resp := answer 404 "404 Not Found" ∅ emptyBody in
  let net := always (inl resp) in
  readBody resp = (Some [], None)
  /\ Get net demoSession "/object/bucket" None [] = Return (None, Some (errors_ParseError []))
  /\ Get net demoSession "/object/bucket" None [] <> Return (None, Some (errors_Wrap (Status resp)))
  /\ Post net demoSession "/object/bucket" None None [] <> Return (None, Some (errors_Wrap (Status resp)))
  /\ Put net demoSession "/object/bucket" None None <> Return (None, Some (errors_Wrap (Status resp))).
Proof.
  repeat split; try (vm_compute; reflexivity); vm_compute; discriminate.
Qed.

(** A login answered [200] with token [abc] succeeds. *)
Lemma performLogin_success_iff_witness :
  exists r,
    performLogin (always (inl (loginAnswer 200 "200 OK" "abc" "400"))) newSession = Return r
    /\ login_err r = None.
Proof.
  apply (proj1 (performLogin_success_iff (L := plain)
                  (always (inl (loginAnswer 200 "200 OK" "abc" "400"))) newSession)).
  eexists. exists (loginAnswer 200 "200 OK" "abc" "400").
  split; [vm_compute; reflexivity|]. split; [reflexivity|]. split; [reflexivity|].
  vm_compute. discriminate.
Defined.

(** The three failures of a login: connection refused, [401], and [200]
    without headers. *)
Lemma performLogin_failure_classes_witness :
  exists req,
    login_request newSession = Some req
    /\ performLogin (always (inr (Foreign "dial tcp: connection refused"))) newSession =
         Return (mkLoginResult (Some (Foreign "dial tcp: connection refused")) newSession [])
    /\ performLogin (always (inl (answer 401 "401 Unauthorized" ∅ emptyBody))) newSession =
         Return (mkLoginResult
                   (Some (Wrapped "login request failed, check endpoint or credentials"))
                   newSession [])
    /\ performLogin (always (inl (answer 200 "200 OK" ∅ emptyBody))) newSession =
         Return (mkLoginResult (Some (Wrapped "Auth Token not available in response"))
                   newSession []).
Proof.
  destruct (login_request (L := plain) newSession) as [req|] eqn:Hreq;
    [|vm_compute in Hreq; discriminate].
  exists req. split; [reflexivity|]. split; [|split].
  - apply (proj1 (performLogin_failure_classes (L := plain)
                    (always (inr (Foreign "dial tcp: connection refused")))
                    newSession req Hreq)).
    reflexivity.
  - apply (proj1 (proj2 (performLogin_failure_classes (L := plain)
                           (always (inl (answer 401 "401 Unauthorized" ∅ emptyBody)))
                           newSession req Hreq))
             (answer 401 "401 Unauthorized" ∅ emptyBody)).
    + reflexivity.
    + vm_compute. discriminate.
  - apply (proj2 (proj2 (performLogin_failure_classes (L := plain)
                           (always (inl (answer 200 "200 OK" ∅ emptyBody)))
                           newSession req Hreq))
             (answer 200 "200 OK" ∅ emptyBody)); reflexivity.
Defined.

(** A login answered [200] with token [abc] and max-age [soon]: the token
    is stored and nothing is scheduled. *)
Lemma performLogin_without_max_age_witness :
  let resp := loginAnswer 200 "200 OK" "abc" "soon" in
  snd (strconv.ParseInt (http.Header_Get (RespHeader resp) "X-SDS-AUTH-MAX-AGE")) <> None
  /\ performLogin (always (inl resp)) newSession =
       Return (mkLoginResult None demoSession []).
Proof.
  split; [vm_compute; discriminate|].
  eapply (fun req Hreq =>
            performLogin_without_max_age (L := plain)
              (always (inl (loginAnswer 200 "200 OK" "abc" "soon"))) newSession req
              (loginAnswer 200 "200 OK" "abc" "soon") Hreq eq_refl eq_refl).
  - vm_compute. reflexivity.
  - vm_compute. discriminate.
  - right. vm_compute. discriminate.
Defined.

(** A [Post] answered [201] returns the body bytes and no error. *)
Lemma success_statuses_witness :
  let body := [Byte.x7b; Byte.x7d] in
  let resp := answer 201 "201 Created" ∅ (Some (mkReadCloser body None)) in
  Post (always (inl resp)) demoSession "/object/bucket" (Some body) None [] =
    Return (Some body, None).
Proof.
  apply (proj1 (proj2 (success_statuses (L := plain)
                         (always (inl (answer 201 "201 Created" ∅
                                         (Some (mkReadCloser [Byte.x7b; Byte.x7d] None)))))
                         demoSession "/object/bucket" (Some [Byte.x7b; Byte.x7d]) None []
                         (Some [Byte.x7b; Byte.x7d])))).
  eexists. eexists. eexists.
  split; [vm_compute; reflexivity|]. split; [reflexivity|].
  split; [right; reflexivity|]. split; [reflexivity|]. split; reflexivity.
Defined.

(** A session built by a login answered [200], token [abc], max-age [400]. *)
Lemma token_never_empty_witness :
  let net := always (inl (loginAnswer 200 "200 OK" "abc" "400")) in
  createEcsSession net "admin" "secret" "https://ecs.local:4443" =
    Return (mkCreated (Some demoSession) None [mkRefresh 100000000000])
  /\ Token demoSession <> ""
  /\ forall trace p,
       run trace (mkProcess demoSession [mkRefresh 100000000000]) = Running p ->
       Token (session p) <> "".
Proof.
  split; [vm_compute; reflexivity|].
  pose proof (token_never_empty (L := plain)
                (always (inl (loginAnswer 200 "200 OK" "abc" "400")))
                "admin" "secret" "https://ecs.local:4443"
                (mkCreated (Some demoSession) None [mkRefresh 100000000000])
                demoSession) as H.
  destruct H as (Htok & Hrun & _).
  - vm_compute. reflexivity.
  - reflexivity.
  - split; [exact Htok | exact Hrun].
Defined.

(** [Put], and [Get] and [Post] with caller headers of other names. *)
Lemma dispatched_headers_witness :
  (exists req,
     Put_request (L := plain) demoSession "/object/bucket" None None = Some req
     /\ carries req "X-SDS-AUTH-TOKEN" "abc"
     /\ carries req "Accept" "application/json"
     /\ carries req "Content-Type" "application/json")
  /\ (exists req,
        Get_request (L := plain) demoSession "/object/bucket" None [("x-emc-namespace", "ns1")]
          = Some req
        /\ carries req "X-SDS-AUTH-TOKEN" "abc"
        /\ carries req "Accept" "application/json"
        /\ carries req "x-emc-namespace" "ns1").
Proof.
  pose proof (dispatched_headers (L := plain) demoSession "/object/bucket" None None
                [("x-emc-namespace", "ns1")]) as (Hput & _ & Hget & Hmerge).
  split.
  - destruct (Put_request (L := plain) demoSession "/object/bucket" None None)
      as [req|] eqn:Hreq; [|vm_compute in Hreq; discriminate].
    exists req. split; [reflexivity|]. now apply Hput.
  - destruct (Get_request (L := plain) demoSession "/object/bucket" None
                [("x-emc-namespace", "ns1")])
      as [req|] eqn:Hreq; [|vm_compute in Hreq; discriminate].
    exists req. split; [reflexivity|].
    destruct (Hget req eq_refl) as (Htok & Hacc).
    split; [|split].
    + apply Htok. intros (kv & [<-|[]] & Heq). vm_compute in Heq. discriminate.
    + apply Hacc. intros (kv & [<-|[]] & Heq). vm_compute in Heq. discriminate.
    + apply (Hmerge req (or_introl eq_refl) [] "x-emc-namespace" "ns1" []);
        [reflexivity|]. intros (kv & [] & _).
Defined.

(** C7, as stated, fails: caller headers named like the fixed ones replace
    them in the request that [Get] dispatches. *)
Lemma caller_headers_replace_defaults :
  let headers := [("accept", "text/plain"); ("X-Sds-Auth-Token", "other")] in
  exists req,
    Get_request (L := plain) demoSession "/object/bucket" None headers = Some req
    /\ (forall net, Get net demoSession "/object/bucket" None headers =
                    Return (respond GetRejects (Client_Do net (c demoSession) req)))
    /\ http.Header_Get (ReqHeader req) "Accept" = "text/plain"
    /\ http.Header_Get (ReqHeader req) "X-SDS-AUTH-TOKEN" = "other"
    /\ ~ carries req "Accept" "application/json"
    /\ ~ carries req "X-SDS-AUTH-TOKEN" (Token demoSession).
Proof.
  eexists. split; [vm_compute; reflexivity|].
  split; [intros net; reflexivity|].
  split; [vm_compute; reflexivity|]. split; [vm_compute; reflexivity|].
  split; intros H; vm_compute in H; discriminate.
Qed.

(** An endpoint with a line feed: no request can be built, every method
    panics. *)
Lemma nil_request_panics_witness :
  let net := always (inr (Foreign "unreachable")) in
  (exists e, url_Parse (Endpoint brokenSession ++ "/object/bucket") = inr e)
  /\ (exists e, url_Parse (Endpoint brokenSession ++ "/login") = inr e)
  /\ Get net brokenSession "/object/bucket" None [] = Panic
  /\ Post net brokenSession "/object/bucket" None None [] = Panic
  /\ Put net brokenSession "/object/bucket" None None = Panic
  /\ performLogin net brokenSession = Panic.
Proof.
  pose proof (nil_request_panics (L := plain) (always (inr (Foreign "unreachable")))
                brokenSession "/object/bucket" None None []) as [Hcall Hlogin].
  assert (H1 : exists e, url_Parse (Endpoint brokenSession ++ "/object/bucket") = inr e).
  { eexists. vm_compute. reflexivity. }
  assert (H2 : exists e, url_Parse (Endpoint brokenSession ++ "/login") = inr e).
  { eexists. vm_compute. reflexivity. }
  destruct (Hcall H1) as (_ & Hget & Hpost & Hput).
  destruct (Hlogin H2) as (_ & Hperf & _).
  repeat split; assumption.
Defined.

(** * Further properties of the request methods *)

Section RequestShape.

Context `{L : Collaborators}.

Lemma invoke_panics net s call :
  request s call = None -> invoke net s call = Panic.
Proof.
  destruct call; simpl; intros Hreq.
  - unfold Get. now rewrite Hreq.
  - unfold Post. now rewrite Hreq.
  - unfold Put. now rewrite Hreq.
Qed.

Lemma respond_error_no_bytes rejected r bytes e :
  respond rejected r = (bytes, Some e) -> bytes = None.
Proof.
  destruct r as [resp|err]; simpl; [|now intros [= <- _]].
  destruct (readBody resp) as [b [e'|]]; [now intros [= <- _]|].
  destruct (rejected (StatusCode resp)); [|discriminate].
  destruct b; now intros [= <- _].
Qed.

(** X1: [Get], [Post] and [Put] never return bytes together with an
    error: whenever the error is not nil the byte slice is nil. *)
Theorem error_without_bytes net s call bytes e :
  invoke net s call = Return (bytes, Some e) -> bytes = None.
Proof.
  destruct (request s call) as [req|] eqn:Hreq.
  - rewrite (invoke_respond net s call req Hreq). intros [= Hresp].
    now apply respond_error_no_bytes in Hresp.
  - rewrite (invoke_panics net s call Hreq). discriminate.
Qed.

(** X2: an error of the transport, and an error met while reading the
    body, are returned as they are, with no bytes, whatever the status code
    of the response is, 200 included. *)
Theorem io_errors_returned net s call req
    (Hreq : request s call = Some req) :
  (forall err, Client_Do net (c s) req = inr err ->
     invoke net s call = Return (None, Some err))
  /\ (forall resp body err, Client_Do net (c s) req = inl resp ->
        Body resp = Some body -> failure body = Some err ->
        invoke net s call = Return (None, Some err)).
Proof.
  rewrite (invoke_respond net s call req Hreq). split.
  - intros err Hdo. now rewrite Hdo.
  - intros resp body err Hdo Hbody Hfail. rewrite Hdo. simpl.
    unfold readBody. rewrite Hbody. simpl. now rewrite Hfail.
Qed.

(** The caller's headers touch the header map only. *)
Lemma rangeSet_line headers : forall req,
  Method (rangeSet req headers) = Method req
  /\ ReqURL (rangeSet req headers) = ReqURL req
  /\ ReqBody (rangeSet req headers) = ReqBody req.
Proof.
  induction headers as [|[k v] rest IH]; intros req; [now repeat split|].
  unfold rangeSet in *. simpl. now destruct (IH (setHeader req k v)) as (-> & -> & ->).
Qed.

(** X3: the request line and body of a dispatched request.  The URL is
    the parse of [Endpoint + subUrl]; its query is replaced by the encoding
    of [q] when [q] is not nil and kept as parsed otherwise.  [Get] sends
    no body, [Post] and [Put] send the bytes of [d] (none for a nil [d]).
    The caller's headers change none of this. *)
Theorem request_line s subUrl d q headers :
  (forall req, Get_request s subUrl q headers = Some req ->
     exists u, url_Parse (Endpoint s ++ subUrl) = inl u /\
       Method req = "GET" /\ ReqBody req = None /\
       ReqURL req = match q with
                    | Some v => URL_setRawQuery u (Values_Encode v)
                    | None => u
                    end)
  /\ (forall req, Post_request s subUrl d q headers = Some req ->
      exists u, url_Parse (Endpoint s ++ subUrl) = inl u /\
        Method req = "POST" /\ ReqBody req = Some (default [] d) /\
        ReqURL req = match q with
                     | Some v => URL_setRawQuery u (Values_Encode v)
                     | None => u
                     end)
  /\ (forall req, Put_request s subUrl d q = Some req ->
      exists u, url_Parse (Endpoint s ++ subUrl) = inl u /\
        Method req = "PUT" /\ ReqBody req = Some (default [] d) /\
        ReqURL req = match q with
                     | Some v => URL_setRawQuery u (Values_Encode v)
                     | None => u
                     end).
Proof.
  split; [|split].
  - unfold Get_request, NewRequest.
    destruct (url_Parse (Endpoint s ++ subUrl)) as [u|e]; [|discriminate].
    intros req [= <-]. exists u. split; [reflexivity|].
    match goal with
    | |- context [rangeSet ?r headers] =>
        destruct (rangeSet_line headers r) as (-> & -> & ->)
    end.
    now destruct q.
  - unfold Post_request, NewRequest.
    destruct (url_Parse (Endpoint s ++ subUrl)) as [u|e]; [|discriminate].
    intros req [= <-]. exists u. split; [reflexivity|].
    match goal with
    | |- context [rangeSet ?r headers] =>
        destruct (rangeSet_line headers r) as (-> & -> & ->)
    end.
    now destruct q.
  - unfold Put_request, NewRequest.
    destruct (url_Parse (Endpoint s ++ subUrl)) as [u|e]; [|discriminate].
    intros req [= <-]. exists u. split; [reflexivity|].
    now destruct q.
Qed.

(** *** The header map as a whole *)

Lemma setHeader_dom req k v :
  dom (ReqHeader (setHeader req k v)) =
    {[textproto.CanonicalMIMEHeaderKey k]} ∪ dom (ReqHeader req).
Proof. simpl. unfold http.Header_Set. apply dom_insert_L. Qed.

Lemma rangeSet_dom headers : forall req,
  dom (ReqHeader (rangeSet req headers)) = dom (ReqHeader req) ∪ callerKeys headers.
Proof.
  induction headers as [|[k v] rest IH]; intros req.
  - unfold callerKeys. simpl. set_solver.
  - unfold rangeSet in *. simpl. rewrite IH, setHeader_dom.
    unfold callerKeys. simpl. set_solver.
Qed.

(** X4: the header names of a dispatched request are the fixed ones of
    the method and the canonical names of the caller's headers, nothing
    else.  In particular the Basic credentials of the session are on no
    [Get], [Post] or [Put] request. *)
Theorem request_header_names s subUrl d q headers :
  (forall req, Get_request s subUrl q headers = Some req ->
     dom (ReqHeader req) =
       {[textproto.CanonicalMIMEHeaderKey "X-SDS-AUTH-TOKEN";
         textproto.CanonicalMIMEHeaderKey "Accept"]} ∪ callerKeys headers)
  /\ (forall req, Post_request s subUrl d q headers = Some req ->
      dom (ReqHeader req) =
        {[textproto.CanonicalMIMEHeaderKey "X-SDS-AUTH-TOKEN";
          textproto.CanonicalMIMEHeaderKey "Content-Type";
          textproto.CanonicalMIMEHeaderKey "Accept"]} ∪ callerKeys headers)
  /\ (forall req, Put_request s subUrl d q = Some req ->
      dom (ReqHeader req) =
        {[textproto.CanonicalMIMEHeaderKey "X-SDS-AUTH-TOKEN";
          textproto.CanonicalMIMEHeaderKey "Content-Type";
          textproto.CanonicalMIMEHeaderKey "Accept"]}
      /\ ReqHeader req !! textproto.CanonicalMIMEHeaderKey "Authorization" = None).
Proof.
  split; [|split].
  - unfold Get_request, NewRequest.
    destruct (url_Parse (Endpoint s ++ subUrl)) as [u|e]; [|discriminate].
    intros req [= <-]. rewrite rangeSet_dom, !setHeader_dom, withQuery_header.
    simpl. rewrite dom_empty_L. set_solver.
  - unfold Post_request, NewRequest.
    destruct (url_Parse (Endpoint s ++ subUrl)) as [u|e]; [|discriminate].
    intros req [= <-]. rewrite rangeSet_dom, !setHeader_dom, withQuery_header.
    simpl. rewrite dom_empty_L. set_solver.
  - unfold Put_request, NewRequest.
    destruct (url_Parse (Endpoint s ++ subUrl)) as [u|e]; [|discriminate].
    intros req [= <-].
    assert (Hdom : dom (ReqHeader
                          (setHeader
                             (setHeader
                                (setHeader
                                   (withQuery
                                      (mkRequest "PUT" u ∅ (bytes_NewReader d)) q)
                                   "X-SDS-AUTH-TOKEN" (Token s))
                                "Content-Type" "application/json")
                             "Accept" "application/json")) =
                   {[textproto.CanonicalMIMEHeaderKey "X-SDS-AUTH-TOKEN";
                     textproto.CanonicalMIMEHeaderKey "Content-Type";
                     textproto.CanonicalMIMEHeaderKey "Accept"]}).
    { rewrite !setHeader_dom, withQuery_header. simpl. rewrite dom_empty_L. set_solver. }
    split; [exact Hdom|].
    apply not_elem_of_dom. rewrite Hdom.
    intros Hin. apply elem_of_union in Hin as [Hin|Hin];
      [apply elem_of_union in Hin as [Hin|Hin]|];
      apply elem_of_singleton in Hin; vm_compute in Hin; discriminate.
Qed.

(** Every header of a map built by [Header.Set] alone has one value. *)
Lemma Header_Set_single (h : http.Header) k v :
  (forall key vs, h !! key = Some vs -> exists x, vs = [x]) ->
  forall key vs, http.Header_Set h k v !! key = Some vs -> exists x, vs = [x].
Proof.
  intros Hh key vs. unfold http.Header_Set.
  destruct (decide (textproto.CanonicalMIMEHeaderKey k = key)) as [->|Hne].
  - rewrite lookup_insert_eq. intros [= <-]. now exists v.
  - rewrite lookup_insert_ne by exact Hne. apply Hh.
Qed.

Lemma rangeSet_single headers : forall req,
  (forall key vs, ReqHeader req !! key = Some vs -> exists x, vs = [x]) ->
  forall key vs, ReqHeader (rangeSet req headers) !! key = Some vs -> exists x, vs = [x].
Proof.
  induction headers as [|[k v] rest IH]; intros req Hreq; [exact Hreq|].
  unfold rangeSet in *. simpl. apply IH. simpl. now apply Header_Set_single.
Qed.

(** X5: every header of a dispatched request has exactly one value, also
    when the caller's headers repeat a name in several spellings. *)
Theorem request_headers_single s call req key vs :
  request s call = Some req -> ReqHeader req !! key = Some vs ->
  exists v, vs = [v].
Proof.
  assert (Hempty : forall key vs, (∅ : http.Header) !! key = Some vs -> exists x, vs = [x]).
  { intros k0 vs0. rewrite lookup_empty. discriminate. }
  destruct call as [subUrl q headers|subUrl d q headers|subUrl d q]; simpl.
  - unfold Get_request, NewRequest.
    destruct (url_Parse (Endpoint s ++ subUrl)) as [u|e]; [|discriminate].
    intros [= <-]. apply rangeSet_single. simpl.
    do 2 apply Header_Set_single. now rewrite withQuery_header.
  - unfold Post_request, NewRequest.
    destruct (url_Parse (Endpoint s ++ subUrl)) as [u|e]; [|discriminate].
    intros [= <-]. apply rangeSet_single. simpl.
    do 3 apply Header_Set_single. now rewrite withQuery_header.
  - unfold Put_request, NewRequest.
    destruct (url_Parse (Endpoint s ++ subUrl)) as [u|e]; [|discriminate].
    intros [= <-]. simpl.
    do 3 apply Header_Set_single. now rewrite withQuery_header.
Qed.

(** X6: the login request is a body-less GET whose only header is
    [Authorization], with the Basic credentials of the session; it does not
    carry the token, and it is the same whatever token the session holds. *)
Theorem login_request_shape s req :
  login_request s = Some req ->
  (exists u, url_Parse (Endpoint s ++ "/login") = inl u /\ ReqURL req = u)
  /\ Method req = "GET" /\ ReqBody req = None
  /\ ReqHeader req =
       {[textproto.CanonicalMIMEHeaderKey "Authorization" :=
           ["Basic " ++ basicAuth (Username s) (Password s)]]}
  /\ ReqHeader req !! textproto.CanonicalMIMEHeaderKey "X-SDS-AUTH-TOKEN" = None
  /\ forall token,
       login_request (mkSession (Username s) (Password s) (Endpoint s) token (c s))
       = Some req.
Proof.
  unfold login_request, NewRequest. simpl.
  destruct (url_Parse (Endpoint s ++ "/login")) as [u|e]; [|discriminate].
  intros [= <-]. split; [now exists u|].
  split; [reflexivity|]. split; [reflexivity|]. split; [|split].
  - simpl. unfold http.Header_Set. apply insert_empty.
  - simpl. unfold http.Header_Set. rewrite lookup_insert_ne.
    + apply lookup_empty.
    + vm_compute. discriminate.
  - intros token. reflexivity.
Qed.

End RequestShape.

(** * Further properties of login and refresh *)

Section RefreshChain.

Context `{L : Collaborators}.

(** X7: a login looks at the status code and the headers of the answer
    only: two answers that agree on both, whatever their status lines and
    bodies, give the same result. *)
Theorem login_reads_status_and_headers net1 net2 s req resp1 resp2
    (Hreq : login_request s = Some req)
    (Hdo1 : Client_Do net1 (c s) req = inl resp1)
    (Hdo2 : Client_Do net2 (c s) req = inl resp2)
    (Hcode : StatusCode resp1 = StatusCode resp2)
    (Hhead : RespHeader resp1 = RespHeader resp2) :
  performLogin net1 s = performLogin net2 s.
Proof.
  rewrite !(performLogin_unfold _ s req Hreq), Hdo1, Hdo2.
  now rewrite Hcode, Hhead.
Qed.

Lemma readToken_at_most_one (h : http.Header) : (length (snd (readToken h)) <= 1)%nat.
Proof.
  rewrite readToken_spawned.
  destruct (_ =? _)%string; [simpl; lia|].
  destruct (strconv.ParseInt _) as [age [e|]]; simpl; lia.
Qed.

Lemma performLogin_spawned net s r :
  performLogin net s = Return r ->
  (length (login_spawned r) <= 1)%nat
  /\ (login_err r <> None -> login_spawned r = []).
Proof.
  destruct (login_request s) as [req|] eqn:Hreq.
  2:{ rewrite (performLogin_panics net s Hreq). discriminate. }
  rewrite (performLogin_unfold net s req Hreq).
  destruct (Client_Do net (c s) req) as [resp|err].
  - destruct (negb (StatusCode resp =? http.StatusOK)).
    + intros [= <-]. simpl. split; [lia|reflexivity].
    + cbv zeta.
      destruct (http.Header_Get (RespHeader resp) "X-SDS-AUTH-TOKEN" =? "")%string.
      * intros [= <-]. simpl. split; [lia|reflexivity].
      * intros [= <-]. simpl. split; [apply readToken_at_most_one|].
        intros Hne. now elim Hne.
  - intros [= <-]. simpl. split; [lia|reflexivity].
Qed.

(** X8: one call of [performLogin] starts at most one refresh goroutine,
    and none at all when it returns an error. *)
Theorem login_spawns_at_most_one net s r :
  performLogin net s = Return r ->
  (length (login_spawned r) <= 1)%nat
  /\ (login_err r <> None -> login_spawned r = []).
Proof.
  intros Hlogin.
  destruct (login_request s) as [req|] eqn:Hreq;
    [|rewrite (performLogin_panics net s Hreq) in Hlogin; discriminate].
  rewrite (performLogin_unfold net s req Hreq) in Hlogin.
  destruct (Client_Do net (c s) req) as [resp|err];
    [|injection Hlogin as <-; simpl; split; [lia|reflexivity]].
  destruct (StatusCode resp =? http.StatusOK); simpl in Hlogin;
    [|injection Hlogin as <-; simpl; split; [lia|reflexivity]].
  destruct (http.Header_Get (RespHeader resp) "X-SDS-AUTH-TOKEN" =? "")%string;
    injection Hlogin as <-; simpl.
  - split; [lia|reflexivity].
  - split; [apply readToken_at_most_one | intros Hne; now elim Hne].
Qed.

(** The fields that no code path assigns. *)
Lemma step_identity net p e p' :
  step net p e = Running p' ->
  Username (session p') = Username (session p)
  /\ Password (session p') = Password (session p)
  /\ Endpoint (session p') = Endpoint (session p)
  /\ c (session p') = c (session p).
Proof.
  destruct e as [call|i].
  - intros Hstep. apply step_invoke in Hstep. now subst p'.
  - simpl. unfold wake. destruct (sleeping p !! i) as [task|]; [|now intros [= <-]].
    destruct (performLogin net (session p)) as [|r] eqn:Hlogin; [discriminate|].
    apply performLogin_session in Hlogin.
    destruct (login_err r); [discriminate|].
    destruct Hlogin as (token & _ & Hs). intros [= <-]. simpl. now rewrite Hs.
Qed.

(** X9: user name, password, endpoint and HTTP client of the session are
    the same in every state that a process reaches, however many requests
    and refreshes have run. *)
Theorem identity_is_fixed trace : forall p p',
  run trace p = Running p' ->
  Username (session p') = Username (session p)
  /\ Password (session p') = Password (session p)
  /\ Endpoint (session p') = Endpoint (session p)
  /\ c (session p') = c (session p).
Proof.
  induction trace as [|[net e] rest IH]; intros p p'; simpl.
  - now intros [= <-].
  - destruct (step net p e) as [p1| |] eqn:Hstep; try discriminate.
    intros Hrun. apply IH in Hrun as (-> & -> & -> & ->).
    now apply (step_identity net p e).
Qed.

Lemma step_sleeping net p e p' :
  (length (sleeping p) <= 1)%nat -> step net p e = Running p' ->
  (length (sleeping p') <= 1)%nat.
Proof.
  intros Hlen. destruct e as [call|i].
  - intros Hstep. apply step_invoke in Hstep. now subst p'.
  - simpl. unfold wake. destruct (sleeping p !! i) as [task|] eqn:Hi;
      [|now intros [= <-]].
    destruct (performLogin net (session p)) as [|r] eqn:Hlogin; [discriminate|].
    destruct (login_err r); [discriminate|].
    intros [= <-]. simpl. rewrite length_app, length_delete by eauto.
    apply performLogin_spawned in Hlogin as [Hsp _].
    apply lookup_lt_Some in Hi. lia.
Qed.

Lemma run_sleeping trace : forall p p',
  (length (sleeping p) <= 1)%nat -> run trace p = Running p' ->
  (length (sleeping p') <= 1)%nat.
Proof.
  induction trace as [|[net e] rest IH]; intros p p' Hlen; simpl.
  - now intros [= <-].
  - destruct (step net p e) as [p1| |] eqn:Hstep; try discriminate.
    apply IH. now apply (step_sleeping net p e).
Qed.

(** X10: a session made by [createEcsSession] has at most one refresh
    pending at any time: the refresh that wakes is replaced by at most one
    new one, and the request methods start none. *)
Theorem at_most_one_refresh_pending net username password endpoint r s trace p
    (Hcreate : createEcsSession net username password endpoint = Return r)
    (Hs : created_session r = Some s)
    (Hrun : run trace (mkProcess s (created_spawned r)) = Running p) :
  (length (sleeping p) <= 1)%nat.
Proof.
  apply (run_sleeping trace (mkProcess s (created_spawned r)) p); [|exact Hrun]. simpl.
  unfold createEcsSession in Hcreate.
  destruct (performLogin net _) as [|r0] eqn:Hlogin; [discriminate|].
  apply performLogin_spawned in Hlogin as [Hlen _].
  destruct (login_err r0); injection Hcreate as <-; exact Hlen.
Qed.

(** X11: [createEcsSession] returns either a session and no error, or an
    error and no session.  A returned session has the given user name,
    password and endpoint and a client that skips certificate checks; on
    error no refresh was started. *)
Theorem createEcsSession_result net username password endpoint r
    (Hcreate : createEcsSession net username password endpoint = Return r) :
  (created_session r = None <-> created_err r <> None)
  /\ (forall s, created_session r = Some s ->
        Username s = username /\ Password s = password /\ Endpoint s = endpoint
        /\ c s = mkClient true /\ Token s <> "")
  /\ (created_err r <> None -> created_spawned r = []).
Proof.
  unfold createEcsSession in Hcreate.
  destruct (performLogin net _) as [|r0] eqn:Hlogin; [discriminate|].
  pose proof (performLogin_session _ _ _ Hlogin) as Hsess.
  pose proof (performLogin_spawned _ _ _ Hlogin) as [_ Hnone].
  destruct (login_err r0) as [err|] eqn:Herr; injection Hcreate as <-; simpl.
  - split; [split; [discriminate | reflexivity]|].
    split; [discriminate|]. intros _. apply Hnone. discriminate.
  - destruct Hsess as (token & Htok & Hs).
    split; [split; [discriminate | intros H; now elim H]|].
    split; [|intros H; now elim H].
    intros s [= <-]. rewrite Hs. simpl. repeat split. exact Htok.
Qed.

(** A request carries the token of the session it was built from, unless
    the caller's headers supply that header. *)
Lemma request_carries_token s call req :
  request s call = Some req ->
  ~ supplies (callHeaders call) "X-SDS-AUTH-TOKEN" ->
  carries req "X-SDS-AUTH-TOKEN" (Token s).
Proof.
  destruct call as [subUrl q headers|subUrl d q headers|subUrl d q]; simpl.
  - unfold Get_request, NewRequest.
    destruct (url_Parse (Endpoint s ++ subUrl)) as [u|e]; [|discriminate].
    intros [= <-] Hno. apply carries_rangeSet; [exact Hno|].
    apply carries_set_ne; [vm_compute; discriminate|]. apply carries_set.
  - unfold Post_request, NewRequest.
    destruct (url_Parse (Endpoint s ++ subUrl)) as [u|e]; [|discriminate].
    intros [= <-] Hno. apply carries_rangeSet; [exact Hno|].
    apply carries_set_ne; [vm_compute; discriminate|].
    apply carries_set_ne; [vm_compute; discriminate|]. apply carries_set.
  - unfold Put_request, NewRequest.
    destruct (url_Parse (Endpoint s ++ subUrl)) as [u|e]; [|discriminate].
    intros [= <-] _.
    apply carries_set_ne; [vm_compute; discriminate|].
    apply carries_set_ne; [vm_compute; discriminate|]. apply carries_set.
Qed.

(** X12: when a pending refresh wakes and its login is answered 200 with
    a token, the process goes on with that token in the session, and every
    request built from then on carries the new token (unless the caller
    supplies that header). *)
Theorem refresh_installs_token net p i task req resp
    (Hi : sleeping p !! i = Some task)
    (Hreq : login_request (session p) = Some req)
    (Hdo : Client_Do net (c (session p)) req = inl resp)
    (Hcode : StatusCode resp = http.StatusOK)
    (Htok : http.Header_Get (RespHeader resp) "X-SDS-AUTH-TOKEN" <> "") :
  exists p',
    wake net p i = Running p'
    /\ Token (session p') = http.Header_Get (RespHeader resp) "X-SDS-AUTH-TOKEN"
    /\ forall call req',
         request (session p') call = Some req' ->
         ~ supplies (callHeaders call) "X-SDS-AUTH-TOKEN" ->
         carries req' "X-SDS-AUTH-TOKEN"
           (http.Header_Get (RespHeader resp) "X-SDS-AUTH-TOKEN").
Proof.
  unfold wake. rewrite Hi, (performLogin_unfold net _ req Hreq), Hdo.
  apply Z.eqb_eq in Hcode. rewrite Hcode. simpl.
  apply String.eqb_neq in Htok. rewrite Htok. simpl.
  eexists. split; [reflexivity|]. split; [reflexivity|].
  intros call req' Hreq' Hno.
  apply (request_carries_token _ call req' Hreq' Hno).
Qed.

(** X13: when a pending refresh wakes and its login fails, by a transport
    error, a status other than 200 or a missing token, the process ends
    there; nothing later in the trace runs. *)
Theorem failed_refresh_exits net p i task req rest
    (Hi : sleeping p !! i = Some task)
    (Hreq : login_request (session p) = Some req)
    (Hfail : (exists err, Client_Do net (c (session p)) req = inr err)
             \/ (exists resp, Client_Do net (c (session p)) req = inl resp /\
                   (StatusCode resp <> http.StatusOK \/
                    http.Header_Get (RespHeader resp) "X-SDS-AUTH-TOKEN" = ""))) :
  run ((net, Wake i) :: rest) p = Exited.
Proof.
  simpl. unfold wake. rewrite Hi, (performLogin_unfold net _ req Hreq).
  destruct Hfail as [[err Hdo]|(resp & Hdo & Hbad)]; rewrite Hdo; [reflexivity|].
  destruct (StatusCode resp =? http.StatusOK) eqn:Hcode; simpl; [|reflexivity].
  destruct Hbad as [Hne|Hempty].
  - apply Z.eqb_eq in Hcode. now elim Hne.
  - now rewrite Hempty.
Qed.

Lemma login_request_identity s s' :
  Username s' = Username s -> Password s' = Password s -> Endpoint s' = Endpoint s ->
  login_request s' = login_request s.
Proof. intros Hu Hp He. unfold login_request. now rewrite Hu, Hp, He. Qed.

(** X14: the token of the session always comes from the service: in
    every state that a process reaches, the token is the one it started
    with or the token header of a 200 answer to the login of one of the
    refreshes of the trace. *)
Theorem token_provenance trace : forall p p',
  run trace p = Running p' ->
  Token (session p') = Token (session p)
  \/ exists net i req resp,
       In (net, Wake i) trace /\
       login_request (session p) = Some req /\
       Client_Do net (c (session p)) req = inl resp /\
       StatusCode resp = http.StatusOK /\
       Token (session p') = http.Header_Get (RespHeader resp) "X-SDS-AUTH-TOKEN".
Proof.
  induction trace as [|[net e] rest IH]; intros p p'; simpl.
  - intros [= <-]. now left.
  - destruct (step net p e) as [p1| |] eqn:Hstep; try discriminate.
    intros Hrun.
    pose proof (step_identity net p e p1 Hstep) as (Hu & Hp & He & Hc).
    pose proof (login_request_identity (session p) (session p1) Hu Hp He) as Hlr.
    destruct (IH p1 p' Hrun) as [Hsame|(net' & i' & req & resp & Hin & Hreq & Hdo & Hcode & Htok)].
    + (* the rest of the trace kept the token of [p1] *)
      rewrite Hsame. clear IH Hrun Hsame.
      destruct e as [call|i].
      * apply step_invoke in Hstep. subst p1. now left.
      * simpl in Hstep. unfold wake in Hstep.
        destruct (sleeping p !! i) as [task|]; [|injection Hstep as <-; now left].
        destruct (login_request (session p)) as [req|] eqn:Hreq.
        2:{ rewrite (performLogin_panics net _ Hreq) in Hstep. discriminate. }
        rewrite (performLogin_unfold net _ req Hreq) in Hstep.
        destruct (Client_Do net (c (session p)) req) as [resp|err] eqn:Hdo;
          [|discriminate].
        destruct (StatusCode resp =? http.StatusOK) eqn:Hcode; simpl in Hstep;
          [|discriminate].
        destruct (http.Header_Get (RespHeader resp) "X-SDS-AUTH-TOKEN" =? "")%string;
          simpl in Hstep; [discriminate|].
        injection Hstep as <-. simpl. right.
        exists net, i, req, resp. apply Z.eqb_eq in Hcode.
        split; [now left|]. auto.
    + right. exists net', i', req, resp.
      split; [now right|]. rewrite <- Hlr, <- Hc. auto.
Qed.

(** X15: for a max-age between 1 and 9223372336 seconds the refresh
    sleeps a positive time that is no longer than the max-age, so it
    neither fires at once nor after the token has expired; for a max-age
    of zero or less (down to -9223372036) it does not sleep at all. *)
Theorem refresh_before_expiry age :
  (0 < age <= 9223372036 + TimeBufferInSeconds ->
     0 < time.Sleep_pause (sleep (refreshAfter age)) <= age * time.Second)
  /\ (- 9223372036 <= age <= 0 ->
      time.Sleep_pause (sleep (refreshAfter age)) = 0).
Proof.
  unfold refreshAfter, TimeBufferInSeconds, time.Sleep_pause. simpl.
  split; intros Hage.
  - destruct (300 <? age) eqn:Hgt.
    + apply Z.ltb_lt in Hgt. rewrite seconds_exact by lia. unfold time.Second. lia.
    + apply Z.ltb_ge in Hgt. rewrite seconds_exact by lia. unfold time.Second. lia.
  - destruct (300 <? age) eqn:Hgt; [apply Z.ltb_lt in Hgt; lia|].
    rewrite seconds_exact by lia. unfold time.Second. lia.
Qed.

(** X16: a refresh whose login succeeds leaves the list of pending
    refreshes with itself removed and, when the answer has a max-age that
    parses, one new refresh for that max-age in its place; without such a
    max-age nothing takes its place. *)
Theorem refresh_reschedules net p i task req resp
    (Hi : sleeping p !! i = Some task)
    (Hreq : login_request (session p) = Some req)
    (Hdo : Client_Do net (c (session p)) req = inl resp)
    (Hcode : StatusCode resp = http.StatusOK)
    (Htok : http.Header_Get (RespHeader resp) "X-SDS-AUTH-TOKEN" <> "") :
  exists p',
    wake net p i = Running p'
    /\ sleeping p' =
         (delete i (sleeping p) ++
          match strconv.ParseInt (http.Header_Get (RespHeader resp) "X-SDS-AUTH-MAX-AGE") with
          | (age, None) => [refreshAfter age]
          | (_, Some _) => []
          end)%list.
Proof.
  unfold wake. rewrite Hi, (performLogin_unfold net _ req Hreq), Hdo.
  apply Z.eqb_eq in Hcode. rewrite Hcode. simpl.
  apply String.eqb_neq in Htok. rewrite Htok. simpl.
  eexists. split; [reflexivity|]. simpl.
  now rewrite readToken_spawned, Htok.
Qed.

End RefreshChain.

(** * The further properties on concrete runs *)

Lemma error_without_bytes_witness :
  exists bytes e,
    invoke (always (inl (answer 404 "404 Not Found" ∅ emptyBody))) demoSession
      (CallGet "/object/bucket" None []) = Return (bytes, Some e)
    /\ bytes = None.
Proof.
  exists None, (Structured []).
  assert (H : invoke (always (inl (answer 404 "404 Not Found" ∅ emptyBody))) demoSession
                (CallGet "/object/bucket" None []) = Return (None, Some (Structured []))).
  { vm_compute. reflexivity. }
  split; [exact H|]. exact (error_without_bytes (L := plain) _ _ _ _ _ H).
Defined.

(** A 200 answer whose body breaks off after one byte. *)
Lemma io_errors_returned_witness :
  let broken := mkReadCloser [Byte.x7b] (Some (Foreign "unexpected EOF")) in
  let net := always (inl (answer 200 "200 OK" ∅ (Some broken))) in
  invoke net demoSession (CallPut "/object/bucket" None None) =
    Return (None, Some (Foreign "unexpected EOF")).
Proof.
  cbv zeta.
  destruct (request (L := plain) demoSession (CallPut "/object/bucket" None None))
    as [req|] eqn:Hreq; [|vm_compute in Hreq; discriminate].
  apply (proj2 (io_errors_returned (L := plain) _ demoSession _ req Hreq)
           (answer 200 "200 OK" ∅
              (Some (@mkReadCloser plain [Byte.x7b] (Some (Foreign "unexpected EOF")))))
           (@mkReadCloser plain [Byte.x7b] (Some (Foreign "unexpected EOF")))
           (Foreign "unexpected EOF"));
    reflexivity.
Defined.

Lemma request_line_witness :
  exists req,
    Get_request (L := plain) demoSession "/object/bucket" (Some [("namespace", "ns1")])
      [("x-emc-namespace", "ns1")] = Some req
    /\ Method req = "GET" /\ ReqBody req = None
    /\ ReqURL req = mkPlainURL "https://ecs.local:4443/object/bucket" "namespace=ns1".
Proof.
  destruct (Get_request (L := plain) demoSession "/object/bucket"
              (Some [("namespace", "ns1")]) [("x-emc-namespace", "ns1")])
    as [req|] eqn:Hreq; [|vm_compute in Hreq; discriminate].
  exists req. split; [reflexivity|].
  destruct (proj1 (request_line (L := plain) demoSession "/object/bucket" None
                     (Some [("namespace", "ns1")]) [("x-emc-namespace", "ns1")])
              req Hreq) as (u & Hu & Hm & Hb & Hurl).
  split; [exact Hm|]. split; [exact Hb|].
  rewrite Hurl. vm_compute in Hu. injection Hu as <-. reflexivity.
Defined.

Lemma request_header_names_witness :
  exists req,
    Get_request (L := plain) demoSession "/object/bucket" None [("x-emc-namespace", "ns1")]
      = Some req
    /\ dom (ReqHeader req) = {["X-Sds-Auth-Token"; "Accept"; "X-Emc-Namespace"]}.
Proof.
  destruct (Get_request (L := plain) demoSession "/object/bucket" None
              [("x-emc-namespace", "ns1")])
    as [req|] eqn:Hreq; [|vm_compute in Hreq; discriminate].
  exists req. split; [reflexivity|].
  rewrite (proj1 (request_header_names (L := plain) demoSession "/object/bucket" None None
                    [("x-emc-namespace", "ns1")]) req Hreq).
  unfold callerKeys. simpl.
  change (textproto.CanonicalMIMEHeaderKey "X-SDS-AUTH-TOKEN") with "X-Sds-Auth-Token".
  change (textproto.CanonicalMIMEHeaderKey "Accept") with "Accept".
  change (textproto.CanonicalMIMEHeaderKey "x-emc-namespace") with "X-Emc-Namespace".
  set_solver.
Defined.

(** The caller gives [Accept] twice, in two spellings. *)
Lemma request_headers_single_witness :
  exists req vs,
    request (L := plain) demoSession
      (CallGet "/object/bucket" None [("accept", "text/xml"); ("ACCEPT", "text/plain")])
      = Some req
    /\ ReqHeader req !! "Accept" = Some vs
    /\ exists v, vs = [v].
Proof.
  destruct (request (L := plain) demoSession
              (CallGet "/object/bucket" None [("accept", "text/xml"); ("ACCEPT", "text/plain")]))
    as [req|] eqn:Hreq; [|vm_compute in Hreq; discriminate].
  destruct (ReqHeader req !! "Accept") as [vs|] eqn:Hvs.
  - exists req, vs. split; [reflexivity|]. split; [exact Hvs|].
    exact (request_headers_single (L := plain) demoSession _ req "Accept" vs Hreq Hvs).
  - vm_compute in Hreq. injection Hreq as <-. vm_compute in Hvs. discriminate.
Defined.

Lemma login_request_shape_witness :
  exists req,
    login_request (L := plain) demoSession = Some req
    /\ ReqHeader req = {["Authorization" := ["Basic admin:secret"]]}
    /\ login_request (L := plain) newSession = Some req.
Proof.
  destruct (login_request (L := plain) demoSession) as [req|] eqn:Hreq;
    [|vm_compute in Hreq; discriminate].
  exists req. split; [reflexivity|].
  destruct (login_request_shape (L := plain) demoSession req Hreq)
    as (_ & _ & _ & Hh & _ & Hany).
  split; [exact Hh | exact (Hany "")].
Defined.

(** Two refused logins with different status lines and bodies. *)
Lemma login_reads_status_and_headers_witness :
  performLogin (always (inl (answer 401 "401 Unauthorized" ∅ emptyBody))) newSession =
  performLogin
    (always (inl (answer 401 "401 Denied" ∅ (Some (mkReadCloser [Byte.x7b; Byte.x7d] None)))))
    newSession.
Proof.
  destruct (login_request (L := plain) newSession) as [req|] eqn:Hreq;
    [|vm_compute in Hreq; discriminate].
  exact (login_reads_status_and_headers (L := plain)
           (always (inl (answer 401 "401 Unauthorized" ∅ emptyBody)))
           (always (inl (answer 401 "401 Denied" ∅
                           (Some (mkReadCloser [Byte.x7b; Byte.x7d] None)))))
           newSession req
           (answer 401 "401 Unauthorized" ∅ emptyBody)
           (answer 401 "401 Denied" ∅ (Some (mkReadCloser [Byte.x7b; Byte.x7d] None)))
           Hreq eq_refl eq_refl eq_refl eq_refl).
Defined.

Lemma login_spawns_at_most_one_witness :
  exists r,
    performLogin (always (inl (loginAnswer 200 "200 OK" "abc" "400"))) newSession = Return r
    /\ (length (login_spawned r) <= 1)%nat.
Proof.
  eexists. split; [vm_compute; reflexivity|].
  apply (login_spawns_at_most_one (L := plain)
           (always (inl (loginAnswer 200 "200 OK" "abc" "400"))) newSession).
  vm_compute. reflexivity.
Defined.

Lemma identity_is_fixed_witness :
  exists p,
    run demoTrace demoProcess = Running p
    /\ Username (session p) = "admin" /\ Password (session p) = "secret"
    /\ Endpoint (session p) = "https://ecs.local:4443"
    /\ c (session p) = mkClient true.
Proof.
  eexists. split; [vm_compute; reflexivity|].
  apply (identity_is_fixed (L := plain) demoTrace demoProcess).
  vm_compute. reflexivity.
Defined.

Lemma at_most_one_refresh_pending_witness :
  exists p,
    run demoTrace demoProcess = Running p /\ (length (sleeping p) <= 1)%nat.
Proof.
  eexists. split; [vm_compute; reflexivity|].
  apply (at_most_one_refresh_pending (L := plain)
           (always (inl (loginAnswer 200 "200 OK" "abc" "400")))
           "admin" "secret" "https://ecs.local:4443"
           (mkCreated (Some demoSession) None [mkRefresh 100000000000])
           demoSession demoTrace).
  - vm_compute. reflexivity.
  - reflexivity.
  - vm_compute. reflexivity.
Defined.

Lemma createEcsSession_result_witness :
  let net := always (inl (answer 401 "401 Unauthorized" ∅ emptyBody)) in
  exists r,
    createEcsSession net "admin" "wrong" "https://ecs.local:4443" = Return r
    /\ created_session r = None /\ created_spawned r = [].
Proof.
  eexists. split; [vm_compute; reflexivity|].
  destruct (createEcsSession_result (L := plain)
              (always (inl (answer 401 "401 Unauthorized" ∅ emptyBody)))
              "admin" "wrong" "https://ecs.local:4443" _ eq_refl) as (Hnone & _ & Hsp).
  split; [apply Hnone | apply Hsp]; vm_compute; discriminate.
Defined.

(** The refresh of [demoProcess] is answered with the token [xyz]. *)
Lemma refresh_installs_token_witness :
  exists p,
    wake renewing demoProcess 0 = Running p
    /\ Token (session p) = "xyz"
    /\ forall req, Put_request (L := plain) (session p) "/object/bucket" None None = Some req ->
         carries req "X-SDS-AUTH-TOKEN" "xyz".
Proof.
  destruct (login_request (L := plain) (session demoProcess)) as [req|] eqn:Hreq;
    [|vm_compute in Hreq; discriminate].
  destruct (refresh_installs_token (L := plain) renewing demoProcess 0
              (mkRefresh 100000000000) req (loginAnswer 200 "200 OK" "xyz" "400")
              eq_refl Hreq eq_refl eq_refl) as (p & Hwake & Htok & Hcarry).
  - vm_compute. discriminate.
  - exists p. split; [exact Hwake|]. split; [exact Htok|].
    intros req' Hreq'.
    apply (Hcarry (CallPut "/object/bucket" None None) req' Hreq').
    intros (kv & [] & _).
Defined.

(** The refresh of [demoProcess] is refused with [401]. *)
Lemma failed_refresh_exits_witness :
  run [(always (inl (answer 401 "401 Unauthorized" ∅ emptyBody)), Wake 0);
       (renewing, Invoke (CallGet "/object/bucket" None []))] demoProcess = Exited.
Proof.
  destruct (login_request (L := plain) (session demoProcess)) as [req|] eqn:Hreq;
    [|vm_compute in Hreq; discriminate].
  apply (failed_refresh_exits (L := plain) _ demoProcess 0 (mkRefresh 100000000000) req _
           eq_refl Hreq).
  right. exists (answer 401 "401 Unauthorized" ∅ emptyBody).
  split; [reflexivity|]. left. vm_compute. discriminate.
Defined.

Lemma token_provenance_witness :
  exists p,
    run demoTrace demoProcess = Running p
    /\ (Token (session p) = Token (session demoProcess)
        \/ exists net i req resp,
             In (net, Wake i) demoTrace /\
             login_request (session demoProcess) = Some req /\
             Client_Do net (c (session demoProcess)) req = inl resp /\
             StatusCode resp = http.StatusOK /\
             Token (session p) = http.Header_Get (RespHeader resp) "X-SDS-AUTH-TOKEN").
Proof.
  eexists. split; [vm_compute; reflexivity|].
  apply (token_provenance (L := plain) demoTrace demoProcess).
  vm_compute. reflexivity.
Defined.

Lemma refresh_before_expiry_witness :
  0 < time.Sleep_pause (sleep (refreshAfter 400)) <= 400 * time.Second
  /\ time.Sleep_pause (sleep (refreshAfter (-5))) = 0.
Proof.
  split.
  - apply (proj1 (refresh_before_expiry 400)). unfold TimeBufferInSeconds. lia.
  - apply (proj2 (refresh_before_expiry (-5))). lia.
Defined.

Lemma refresh_reschedules_witness :
  exists p,
    wake renewing demoProcess 0 = Running p
    /\ sleeping p = [mkRefresh 100000000000].
Proof.
  destruct (login_request (L := plain) (session demoProcess)) as [req|] eqn:Hreq;
    [|vm_compute in Hreq; discriminate].
  destruct (refresh_reschedules (L := plain) renewing demoProcess 0
              (mkRefresh 100000000000) req (loginAnswer 200 "200 OK" "xyz" "400")
              eq_refl Hreq eq_refl eq_refl) as (p & Hwake & Hsleep).
  - vm_compute. discriminate.
  - exists p. split; [exact Hwake|]. rewrite Hsleep. vm_compute. reflexivity.
Defined.

(** A transport answer without body reader: the client puts an empty
    reader in its place, and the call ends like the one with an empty body. *)
Lemma missing_body_is_parsed :
  let net := always (inl (answer 404 "404 Not Found" ∅ None)) in
  Get net demoSession "/object/bucket" None [] = Return (None, Some (errors_ParseError []))
  /\ Post net demoSession "/object/bucket" None None [] =
       Return (None, Some (errors_ParseError []))
  /\ Put net demoSession "/object/bucket" None None =
       Return (None, Some (errors_ParseError [])).
Proof. repeat split; vm_compute; reflexivity. Qed.
